(** * Frame.cpp of the ANARI/OSPRay device: the frame (render target) object

    A shallow embedding of [anari::ospray::Frame] (src/Frame.cpp) and the
    properties of its parameter ingestion, lazy reconstruction, render
    dispatch, property query and channel mapping.

    The frame talks to three collaborators that live outside the unit:
    the OSPRay engine ([ospRelease], [ospRenderFrame], ...), the owning
    device ([isModified]) and the base class [Object] ([Object::setParam],
    [Object::commit], [Object::getProperty], [refInc], [refDec], and the
    assignment of the [IntrusivePtr] references).  Every
    call that leaves the unit is appended to a trace, in program order; the
    value a call returns is drawn from an oracle that sees the calls made
    so far.  Caller memory reached through raw pointers is a heap of
    scalar cells.  A method is a computation over the frame's fields, the
    heap and the trace. *)

From Stdlib Require Import ZArith List String Bool Lia.
Import ListNotations.
Open Scope Z_scope.

(** ** Pointers, handles and scalar memory *)

(** Raw pointers and engine handles are addresses; [nullptr] is 0. *)
Definition ptr := Z.
Definition nullptr : ptr := 0.

(** Caller memory: the scalar stored at an address. *)
Definition Heap := Z -> Z.

Definition upd (h : Heap) (a v : Z) : Heap :=
  fun x => if x =? a then v else h x.

(** Conversion of a stored 32-bit pattern to [int], and of an [int] to
    [uint32_t]. *)
Definition to_int32 (v : Z) : Z := (v + 2 ^ 31) mod 2 ^ 32 - 2 ^ 31.
Definition to_uint32 (v : Z) : Z := v mod 2 ^ 32.

(** The [int] read at [mem], viewed as an array of [int], at index [offs]. *)
Definition load_int (h : Heap) (mem offs : Z) : Z := to_int32 (h (mem + 4 * offs)).

(** The object or function pointer read at [mem]. *)
Definition load_ptr (h : Heap) (mem : ptr) : ptr := h mem.

(** ** Constants of the ANARI and OSPRay headers

    The headers are not part of the unit; the type tags, the wait flag and
    the frame-buffer channel bits are taken as parameters. *)
Record Enums := {
  ANARI_FLOAT32 : Z;
  ANARI_FLOAT32_VEC3 : Z;
  ANARI_UINT32_VEC2 : Z;
  ANARI_DATA_TYPE : Z;
  ANARI_RENDERER : Z;
  ANARI_CAMERA : Z;
  ANARI_WORLD : Z;
  ANARI_FRAME_COMPLETION_CALLBACK : Z;
  ANARI_VOID_POINTER : Z;
  ANARI_WAIT : Z;
  OSP_FB_COLOR : Z;
  OSP_FB_DEPTH : Z;
  OSP_FB_ACCUM : Z;
  OSP_FB_VARIANCE : Z;
  OSP_FB_NORMAL : Z;
  OSP_FB_ALBEDO : Z
}.

(** ** Calls that leave the unit *)

(** What the lambda handed to [std::thread] captures by value: [this], the
    device [_d] and the local [f]. *)
Record Thread := { cap_this : ptr; cap_d : ptr; cap_f : ptr }.

Inductive Call :=
| ospRelease (h : Z)
| ospWait (h : Z)
| ospGetTaskDuration (h : Z)
| ospGetProgress (h : Z)
| ospGetVariance (fb : Z)
| ospResetAccumulation (fb : Z)
| ospRenderFrame (fb renderer camera world : Z)
| ospMapFrameBuffer (fb channel : Z)
| ospUnmapFrameBuffer (p fb : Z)
| ospNewFrameBuffer (size_x size_y format channels : Z)
| isModified (d : ptr)
| Object_getProperty (name : string) (type : Z) (p : ptr) (flags : Z)
| Object_commit
| Object_setParam (id : string) (type : Z) (mem : ptr)
| refInc (obj : ptr)
| refDec (obj : ptr)
| IntrusivePtr_assign (released acquired : ptr)
| thread_detach (th : Thread)
| continuation (fn : ptr) (userData : ptr) (d : ptr) (frame : ptr).

(** ** The frame's fields *)

Record Frame := {
  m_object : Z;
  m_future : Z;
  m_size_x : Z;
  m_size_y : Z;
  m_format : Z;
  m_depthBuffer : bool;
  m_normalBuffer : bool;
  m_albedoBuffer : bool;
  m_reconstructOnCommit : bool;
  m_renderer : ptr;
  m_camera : ptr;
  m_world : ptr;
  m_continuation : ptr;
  m_continuationPtr : ptr
}.

Definition set_m_object (v : Z) (f : Frame) : Frame :=
  let (_, b, c, d, e, g, h, i, j, k, l, m, n, o) := f in
  Build_Frame v b c d e g h i j k l m n o.
Definition set_m_future (v : Z) (f : Frame) : Frame :=
  let (a, _, c, d, e, g, h, i, j, k, l, m, n, o) := f in
  Build_Frame a v c d e g h i j k l m n o.
Definition set_m_size_x (v : Z) (f : Frame) : Frame :=
  let (a, b, _, d, e, g, h, i, j, k, l, m, n, o) := f in
  Build_Frame a b v d e g h i j k l m n o.
Definition set_m_size_y (v : Z) (f : Frame) : Frame :=
  let (a, b, c, _, e, g, h, i, j, k, l, m, n, o) := f in
  Build_Frame a b c v e g h i j k l m n o.
Definition set_m_format (v : Z) (f : Frame) : Frame :=
  let (a, b, c, d, _, g, h, i, j, k, l, m, n, o) := f in
  Build_Frame a b c d v g h i j k l m n o.
Definition set_m_depthBuffer (v : bool) (f : Frame) : Frame :=
  let (a, b, c, d, e, _, h, i, j, k, l, m, n, o) := f in
  Build_Frame a b c d e v h i j k l m n o.
Definition set_m_normalBuffer (v : bool) (f : Frame) : Frame :=
  let (a, b, c, d, e, g, _, i, j, k, l, m, n, o) := f in
  Build_Frame a b c d e g v i j k l m n o.
Definition set_m_albedoBuffer (v : bool) (f : Frame) : Frame :=
  let (a, b, c, d, e, g, h, _, j, k, l, m, n, o) := f in
  Build_Frame a b c d e g h v j k l m n o.
Definition set_m_reconstructOnCommit (v : bool) (f : Frame) : Frame :=
  let (a, b, c, d, e, g, h, i, _, k, l, m, n, o) := f in
  Build_Frame a b c d e g h i v k l m n o.
Definition set_m_renderer (v : ptr) (f : Frame) : Frame :=
  let (a, b, c, d, e, g, h, i, j, _, l, m, n, o) := f in
  Build_Frame a b c d e g h i j v l m n o.
Definition set_m_camera (v : ptr) (f : Frame) : Frame :=
  let (a, b, c, d, e, g, h, i, j, k, _, m, n, o) := f in
  Build_Frame a b c d e g h i j k v m n o.
Definition set_m_world (v : ptr) (f : Frame) : Frame :=
  let (a, b, c, d, e, g, h, i, j, k, l, _, n, o) := f in
  Build_Frame a b c d e g h i j k l v n o.
Definition set_m_continuation (v : ptr) (f : Frame) : Frame :=
  let (a, b, c, d, e, g, h, i, j, k, l, m, _, o) := f in
  Build_Frame a b c d e g h i j k l m v o.
Definition set_m_continuationPtr (v : ptr) (f : Frame) : Frame :=
  let (a, b, c, d, e, g, h, i, j, k, l, m, n, _) := f in
  Build_Frame a b c d e g h i j k l m n v.

(** ** The state a method runs in, and computations over it *)

Record World := { self : Frame; heap : Heap; trace : list Call }.

(** A method returns normally, leaves by a C++ exception, or runs into
    undefined behaviour (a null scene-object reference is dereferenced).
    Each outcome carries the state reached. *)
Inductive Outcome (A : Type) :=
| Ok (a : A) (w : World)
| Throw (msg : string) (w : World)
| Undefined (w : World).
Arguments Ok {A} a w.
Arguments Throw {A} msg w.
Arguments Undefined {A} w.

Definition M (A : Type) := World -> Outcome A.

Definition ret {A} (a : A) : M A := fun w => Ok a w.

Definition bind {A B} (c : M A) (k : A -> M B) : M B :=
  fun w => match c w with
           | Ok a w' => k a w'
           | Throw msg w' => Throw msg w'
           | Undefined w' => Undefined w'
           end.

Declare Scope frame_scope.
Delimit Scope frame_scope with frame.
Notation "x <- c ;; k" := (bind c (fun x => k))
  (at level 61, c at next level, right associativity) : frame_scope.
Notation "c ;; k" := (bind c (fun _ => k))
  (at level 61, right associativity) : frame_scope.
Open Scope frame_scope.

Definition throw {A} (msg : string) : M A := fun w => Throw msg w.
Definition undefined {A} : M A := fun w => Undefined w.

Definition when (b : bool) (c : M unit) : M unit := if b then c else ret tt.

(** The frame's fields as they are now. *)
Definition this_frame : M Frame := fun w => Ok (self w) w.

(** Assignment to a field. *)
Definition assign {A} (set : A -> Frame -> Frame) (v : A) : M unit :=
  fun w => Ok tt {| self := set v (self w); heap := heap w; trace := trace w |}.

Definition log (c : Call) (w : World) : World :=
  {| self := self w; heap := heap w; trace := trace w ++ [c] |}.

(** A call whose result is not used. *)
Definition tell (c : Call) : M unit := fun w => Ok tt (log c w).

(** A write through an out-pointer.  The out-pointers of [Frame::map] and
    [Frame::getProperty] are the caller's: that they point to writable
    memory is the caller's precondition, and a store through a null or
    dangling pointer is outside the model. *)
Definition store (a v : Z) : M unit :=
  fun w => Ok tt {| self := self w; heap := upd (heap w) a v; trace := trace w |}.

Definition get_heap : M Heap := fun w => Ok (heap w) w.

Definition nonzero (v : Z) : bool := negb (v =? 0).

Definition streq (a b : string) : bool := String.eqb a b.
Arguments streq (a b)%_string.
Infix "==" := streq (at level 70, no associativity) : frame_scope.

(** ** The methods of [Frame] *)

Section FrameMethods.

(** The header constants. *)
Variable K : Enums.
(** What a call out of the unit returns, given the calls made before it:
    a handle, a mapped pointer, a flag, or the bit pattern of a float. *)
Variable respond : list Call -> Call -> Z.
(** [enumCast<OSPFrameBufferFormat>], the device's conversion of an ANARI
    type tag to an engine pixel format. *)
Variable enumCast : Z -> Z.
(** [handleAs<T>()] of another object: the engine handle of the scene
    object at an address. *)
Variable handleOf : ptr -> Z.

(** A call whose result is used. *)
Definition ask (c : Call) : M Z :=
  fun w => Ok (respond (trace w) c) (log c w).

(** [Frame::~Frame] *)
Definition destroy : M unit :=
  f <- this_frame ;;
  tell (ospRelease (m_future f)).

(** [Frame::getProperty].  [memcpy(ptr, &d, sizeof(d))] stores the float
    the engine returned at [p]. *)
Definition getProperty (name : string) (type : Z) (p : ptr) (flags : Z)
    : M bool :=
  f <- this_frame ;;
  if (name == "duration") && (type =? ANARI_FLOAT32 K) && nonzero (m_future f)
  then
    when (nonzero (Z.land flags (ANARI_WAIT K))) (tell (ospWait (m_future f))) ;;
    d <- ask (ospGetTaskDuration (m_future f)) ;;
    store p d ;;
    ret true
  else if (name == "progress") && (type =? ANARI_FLOAT32 K) && nonzero (m_future f)
  then
    when (nonzero (Z.land flags (ANARI_WAIT K))) (tell (ospWait (m_future f))) ;;
    d <- ask (ospGetProgress (m_future f)) ;;
    store p d ;;
    ret true
  else if (name == "variance") && (type =? ANARI_FLOAT32 K) && nonzero (m_future f)
  then
    when (nonzero (Z.land flags (ANARI_WAIT K))) (tell (ospWait (m_future f))) ;;
    d <- ask (ospGetVariance (m_object f)) ;;
    store p d ;;
    ret true
  else
    b <- ask (Object_getProperty name type p flags) ;;
    ret (nonzero b).

(** [Frame::constructHandle] *)
Definition constructHandle : M unit :=
  f <- this_frame ;;
  tell (ospRelease (m_object f)) ;;
  let channels := Z.lor (Z.lor (OSP_FB_COLOR K) (OSP_FB_ACCUM K)) (OSP_FB_VARIANCE K) in
  let channels := if m_depthBuffer f then Z.lor channels (OSP_FB_DEPTH K) else channels in
  let channels := if m_normalBuffer f then Z.lor channels (OSP_FB_NORMAL K) else channels in
  let channels := if m_albedoBuffer f then Z.lor channels (OSP_FB_ALBEDO K) else channels in
  h <- ask (ospNewFrameBuffer (m_size_x f) (m_size_y f) (enumCast (m_format f)) channels) ;;
  assign set_m_object h.

(** [Frame::commit] *)
Definition commit : M unit :=
  f <- this_frame ;;
  when (m_reconstructOnCommit f)
    (constructHandle ;;
     assign set_m_reconstructOnCommit false) ;;
  tell Object_commit.

(** The rewriting of bare channel names at the head of [Frame::setParam]. *)
Definition setParam_id (id : string) : string :=
  if id == "color" then "channel.color"
  else if id == "depth" then "channel.depth"
  else if id == "normal" then "channel.normal"
  else if id == "albedo" then "channel.albedo"
  else id.

(** The lambda [setAsInt] of [Frame::setParam]: [set] is the field the
    reference [v] is bound to. *)
Definition setAsInt (mem : ptr) (set : Z -> Frame -> Frame) (offs : Z) : M unit :=
  h <- get_heap ;;
  assign set (load_int h mem offs) ;;
  assign set_m_reconstructOnCommit true.

(** Modelled from the spec: the assignment operator of
    [IntrusivePtr<Object>], whose header is not in src; "assigning a new
    handle releases the previous share and acquires the new one".  The
    lambda [setNewHandle] of [Frame::setParam] assigns the object pointer
    read at [mem] to the reference [existing]: the assignment is a call out
    of the unit, logged with the object whose share is released (the
    reference's old value, which the release may destroy) and the object
    whose share is acquired; then the reference holds the new pointer. *)
Definition setNewHandle (existing : Frame -> ptr)
    (set_existing : ptr -> Frame -> Frame) (mem : ptr) : M unit :=
  h <- get_heap ;;
  f <- this_frame ;;
  tell (IntrusivePtr_assign (existing f) (load_ptr h mem)) ;;
  assign set_existing (load_ptr h mem).

(** [Frame::setParam].  [ANARIDataType] is an [int], so the tag value of a
    channel parameter is read from [mem] as one. *)
Definition setParam (_id : string) (type : Z) (mem : ptr) : M unit :=
  let id := setParam_id _id in
  h <- get_heap ;;
  if (id == "size") && (type =? ANARI_UINT32_VEC2 K) then
    setAsInt mem set_m_size_x 0 ;;
    setAsInt mem set_m_size_y 1
  else if (id == "channel.color") && (type =? ANARI_DATA_TYPE K) then
    setAsInt mem set_m_format 0
  else if (id == "channel.depth") && (type =? ANARI_DATA_TYPE K) then
    assign set_m_reconstructOnCommit true ;;
    assign set_m_depthBuffer true
  else if (id == "channel.albedo") && (type =? ANARI_DATA_TYPE K) then
    (if load_int h mem 0 =? ANARI_FLOAT32_VEC3 K
     then (assign set_m_reconstructOnCommit true ;;
           assign set_m_albedoBuffer true)
     else throw "Unsupported albedo type.")
  else if (id == "channel.normal") && (type =? ANARI_DATA_TYPE K) then
    (if load_int h mem 0 =? ANARI_FLOAT32_VEC3 K
     then (assign set_m_reconstructOnCommit true ;;
           assign set_m_normalBuffer true)
     else throw "Unsupported normal type.")
  else if (id == "renderer") && (type =? ANARI_RENDERER K) then
    setNewHandle m_renderer set_m_renderer mem
  else if (id == "camera") && (type =? ANARI_CAMERA K) then
    setNewHandle m_camera set_m_camera mem
  else if (id == "world") && (type =? ANARI_WORLD K) then
    setNewHandle m_world set_m_world mem
  else if (id == "frameCompletionCallback")
          && (type =? ANARI_FRAME_COMPLETION_CALLBACK K) then
    assign set_m_continuation (load_ptr h mem)
  else if (id == "frameCompletionCallbackUserData")
          && (type =? ANARI_VOID_POINTER K) then
    assign set_m_continuationPtr mem
  else
    tell (Object_setParam _id type mem).

(** [p->handleAs<T>()] on a scene-object reference held by the frame. *)
Definition deref (p : ptr) : M Z :=
  if p =? nullptr then undefined else ret (handleOf p).

(** [Frame::render]; [this] is the address of the frame. *)
Definition render (this : ptr) (_d : ptr) : M unit :=
  f <- this_frame ;;
  tell (ospRelease (m_future f)) ;;
  modified <- ask (isModified _d) ;;
  when (nonzero modified) (tell (ospResetAccumulation (m_object f))) ;;
  r <- deref (m_renderer f) ;;
  c <- deref (m_camera f) ;;
  w <- deref (m_world f) ;;
  fut <- ask (ospRenderFrame (m_object f) r c w) ;;
  assign set_m_future fut ;;
  f <- this_frame ;;
  when (nonzero (m_continuation f))
    (tell (ospWait (m_future f)) ;;
     tell (refInc this) ;;
     tell (thread_detach {| cap_this := this; cap_d := _d; cap_f := this |})).

(** The body of the detached thread.  The lambda captures [this], so
    [m_continuation] and [m_continuationPtr] are read from the frame when
    the thread runs. *)
Definition thread_body (th : Thread) : M unit :=
  f <- this_frame ;;
  (if nonzero (m_continuation f)
   then tell (continuation (m_continuation f) (m_continuationPtr f)
                (cap_d th) (cap_this th))
   else undefined) ;;
  tell (refDec (cap_f th)).

(** [Frame::future] *)
Definition future : M Z :=
  f <- this_frame ;;
  ret (m_future f).

(** The rewriting of bare channel names in [Frame::map]. *)
Definition map_channel (channel : string) : string :=
  if channel == "color" then "channel.color"
  else if channel == "depth" then "channel.depth"
  else if channel == "albedo" then "channel.albedo"
  else if channel == "normal" then "channel.normal"
  else channel.

(** [Frame::map]; [width], [height] and [pixelType] are the out-pointers. *)
Definition map (_channel : string) (width height pixelType : ptr) : M ptr :=
  f <- this_frame ;;
  let fbh := m_object f in
  store width (to_uint32 (m_size_x f)) ;;
  store height (to_uint32 (m_size_y f)) ;;
  let channel := map_channel _channel in
  if channel == "channel.color" then
    store pixelType (m_format f) ;;
    ask (ospMapFrameBuffer fbh (OSP_FB_COLOR K))
  else if channel == "channel.depth" then
    store pixelType (ANARI_FLOAT32 K) ;;
    ask (ospMapFrameBuffer fbh (OSP_FB_DEPTH K))
  else if channel == "channel.albedo" then
    store pixelType (ANARI_FLOAT32_VEC3 K) ;;
    ask (ospMapFrameBuffer fbh (OSP_FB_ALBEDO K))
  else if channel == "channel.normal" then
    store pixelType (ANARI_FLOAT32_VEC3 K) ;;
    ask (ospMapFrameBuffer fbh (OSP_FB_NORMAL K))
  else ret nullptr.

(** [Frame::unmap] *)
Definition unmap (p : ptr) : M unit :=
  f <- this_frame ;;
  let fbh := m_object f in
  tell (ospUnmapFrameBuffer p fbh).

End FrameMethods.

(** ** Client programs

    The public interface as a client drives it: a sequence of calls, each
    on the state the previous one left.  An exception is caught by the
    client, which goes on with the state reached at the throw; after
    undefined behaviour nothing more is said. *)

Inductive Op :=
| SetParam (_id : string) (type : Z) (mem : ptr)
| Commit
| Render (this : ptr) (_d : ptr)
| Map (_channel : string) (width height pixelType : ptr)
| Unmap (p : ptr)
| GetProperty (name : string) (type : Z) (p : ptr) (flags : Z).

Definition exec (K : Enums) (respond : list Call -> Call -> Z)
    (enumCast : Z -> Z) (handleOf : ptr -> Z) (op : Op) : M unit :=
  match op with
  | SetParam _id type mem => setParam K _id type mem
  | Commit => commit K respond enumCast
  | Render this _d => render respond handleOf this _d
  | Map _channel width height pixelType =>
      _ <- map K respond _channel width height pixelType ;; ret tt
  | Unmap p => unmap p
  | GetProperty name type p flags =>
      _ <- getProperty K respond name type p flags ;; ret tt
  end.

Fixpoint run (K : Enums) (respond : list Call -> Call -> Z)
    (enumCast : Z -> Z) (handleOf : ptr -> Z) (ops : list Op) (w : World)
    : World :=
  match ops with
  | [] => w
  | op :: rest =>
      match exec K respond enumCast handleOf op w with
      | Ok _ w' => run K respond enumCast handleOf rest w'
      | Throw _ w' => run K respond enumCast handleOf rest w'
      | Undefined w' => w'
      end
  end.

(** The state a call leaves behind, whatever its outcome. *)
Definition state_of {A} (o : Outcome A) : World :=
  match o with
  | Ok _ w => w
  | Throw _ w => w
  | Undefined w => w
  end.

(** Every auxiliary channel enabled in [f] is enabled in [f']. *)
Definition keeps_enabled (f f' : Frame) : Prop :=
  (m_depthBuffer f = true -> m_depthBuffer f' = true)
  /\ (m_normalBuffer f = true -> m_normalBuffer f' = true)
  /\ (m_albedoBuffer f = true -> m_albedoBuffer f' = true).

(** ** Observations on traces *)

Definition is_create (c : Call) : bool :=
  match c with ospNewFrameBuffer _ _ _ _ => true | _ => false end.

(** The reconstruction counter: how many buffers the engine was asked to
    create. *)
Definition creates (tr : list Call) : nat := List.length (filter is_create tr).

Definition is_variance_query (c : Call) : bool :=
  match c with ospGetVariance _ => true | _ => false end.

Definition is_continuation (c : Call) : bool :=
  match c with continuation _ _ _ _ => true | _ => false end.

(** ** The steps of a render, as calls *)

(** The calls [Frame::render] makes before it reaches the scene-object
    references: the release of the previous task, the device's
    modification query and, if the device answers yes, the reset of the
    accumulation. *)
Definition render_prefix (respond : list Call -> Call -> Z) (_d : ptr)
    (w : World) : list Call :=
  [ospRelease (m_future (self w)); isModified _d]
  ++ (if nonzero (respond (trace w ++ [ospRelease (m_future (self w))])
                    (isModified _d))
      then [ospResetAccumulation (m_object (self w))]
      else []).

(** The submission of the render task. *)
Definition render_submit (handleOf : ptr -> Z) (w : World) : Call :=
  ospRenderFrame (m_object (self w))
    (handleOf (m_renderer (self w)))
    (handleOf (m_camera (self w)))
    (handleOf (m_world (self w))).

(** The calls that follow the submission when a callback is registered. *)
Definition render_notify (this _d : ptr) (fut : Z) : list Call :=
  [ospWait fut; refInc this;
   thread_detach {| cap_this := this; cap_d := _d; cap_f := this |}].

(** The scene-object references are all set. *)
Definition scene_set (f : Frame) : bool :=
  nonzero (m_renderer f) && nonzero (m_camera f) && nonzero (m_world f).

(** ** Channel sets *)

Inductive Channel := Color | Depth | Accum | Variance | Normal | Albedo.

Definition all_channels : list Channel :=
  [Color; Depth; Accum; Variance; Normal; Albedo].

Definition channel_bit (K : Enums) (c : Channel) : Z :=
  match c with
  | Color => OSP_FB_COLOR K
  | Depth => OSP_FB_DEPTH K
  | Accum => OSP_FB_ACCUM K
  | Variance => OSP_FB_VARIANCE K
  | Normal => OSP_FB_NORMAL K
  | Albedo => OSP_FB_ALBEDO K
  end.

Definition channel_eqb (a b : Channel) : bool :=
  match a, b with
  | Color, Color | Depth, Depth | Accum, Accum
  | Variance, Variance | Normal, Normal | Albedo, Albedo => true
  | _, _ => false
  end.

(** The channels a buffer built from [f] is to hold: the three that are
    always present and the optional ones whose flag is set. *)
Definition wanted (f : Frame) (c : Channel) : bool :=
  match c with
  | Color | Accum | Variance => true
  | Depth => m_depthBuffer f
  | Normal => m_normalBuffer f
  | Albedo => m_albedoBuffer f
  end.

Definition channel_set (f : Frame) : list Channel := filter (wanted f) all_channels.

(** The union of a set of channels as a mask. *)
Definition mask_of (K : Enums) (cs : list Channel) : Z :=
  fold_right (fun c m => Z.lor (channel_bit K c) m) 0 cs.

Definition in_mask (K : Enums) (mask : Z) (c : Channel) : bool :=
  nonzero (Z.land mask (channel_bit K c)).

(** The channel constants are non-empty, pairwise disjoint bit sets (as the
    engine's one-bit flags are). *)
Definition channel_bits_disjoint (K : Enums) : bool :=
  forallb (fun a =>
    nonzero (channel_bit K a) &&
    forallb (fun b =>
      channel_eqb a b || (Z.land (channel_bit K a) (channel_bit K b) =? 0))
      all_channels) all_channels.

(** ** Parameter table *)

(** The type tag [Frame::setParam] tests a recognized name against (the
    name after the rewriting of bare channel names). *)
Definition expected_type (K : Enums) (id : string) : option Z :=
  if id == "size" then Some (ANARI_UINT32_VEC2 K)
  else if id == "channel.color" then Some (ANARI_DATA_TYPE K)
  else if id == "channel.depth" then Some (ANARI_DATA_TYPE K)
  else if id == "channel.albedo" then Some (ANARI_DATA_TYPE K)
  else if id == "channel.normal" then Some (ANARI_DATA_TYPE K)
  else if id == "renderer" then Some (ANARI_RENDERER K)
  else if id == "camera" then Some (ANARI_CAMERA K)
  else if id == "world" then Some (ANARI_WORLD K)
  else if id == "frameCompletionCallback" then Some (ANARI_FRAME_COMPLETION_CALLBACK K)
  else if id == "frameCompletionCallbackUserData" then Some (ANARI_VOID_POINTER K)
  else None.

(** The four channels [Frame::map] knows by name. *)
Definition mappable (channel : string) : bool :=
  (channel == "channel.color") || (channel == "channel.depth")
  || (channel == "channel.albedo") || (channel == "channel.normal").

(** ** Test doubles *)

(** An assignment of pairwise distinct type tags and one-bit channel
    flags. *)
Definition test_enums : Enums := {|
  ANARI_FLOAT32 := 1068;
  ANARI_FLOAT32_VEC3 := 1070;
  ANARI_UINT32_VEC2 := 1037;
  ANARI_DATA_TYPE := 100;
  ANARI_RENDERER := 514;
  ANARI_CAMERA := 507;
  ANARI_WORLD := 519;
  ANARI_FRAME_COMPLETION_CALLBACK := 203;
  ANARI_VOID_POINTER := 102;
  ANARI_WAIT := 1;
  OSP_FB_COLOR := 1;
  OSP_FB_DEPTH := 2;
  OSP_FB_ACCUM := 4;
  OSP_FB_VARIANCE := 8;
  OSP_FB_NORMAL := 16;
  OSP_FB_ALBEDO := 32
|}.

(** Collaborators that answer 0 to everything: the base object finds no
    property, the device reports no modification. *)
Definition silent (tr : list Call) (c : Call) : Z := 0.

(** An engine that hands out a fresh non-null handle at every call. *)
Definition fresh (tr : list Call) (c : Call) : Z := Z.of_nat (List.length tr) + 1000.

Definition new_frame : Frame := {|
  m_object := 0; m_future := 0;
  m_size_x := 0; m_size_y := 0; m_format := 0;
  m_depthBuffer := false; m_normalBuffer := false; m_albedoBuffer := false;
  m_reconstructOnCommit := false;
  m_renderer := 0; m_camera := 0; m_world := 0;
  m_continuation := 0; m_continuationPtr := 0
|}.

(** A frame of 64 by 48 pixels with a buffer, scene references and a
    completion callback, and no task yet. *)
Definition ready_frame : Frame := {|
  m_object := 7; m_future := 0;
  m_size_x := 64; m_size_y := 48; m_format := 1;
  m_depthBuffer := true; m_normalBuffer := false; m_albedoBuffer := false;
  m_reconstructOnCommit := true;
  m_renderer := 11; m_camera := 12; m_world := 13;
  m_continuation := 21; m_continuationPtr := 0
|}.

(** Caller memory holding the pointer 200 at address 100, the tag 1068 at
    address 300 and the pair (640, 480) at address 400. *)
Definition test_heap : Heap :=
  fun a => if a =? 100 then 200
           else if a =? 300 then 1068
           else if a =? 400 then 640
           else if a =? 404 then 480
           else 0.

Definition world_of (f : Frame) : World :=
  {| self := f; heap := test_heap; trace := [] |}.

(** ** Tables read off the conditional chains *)

(** The bare channel names both rewritings know, and the form they are
    rewritten to. *)
Definition bare_names : list string := ["color"; "depth"; "normal"; "albedo"]%string.

Definition namespaced (s : string) : string := ("channel." ++ s)%string.

(** The names whose branch of [Frame::setParam] sets
    [m_reconstructOnCommit]. *)
Definition structural (id : string) : bool :=
  (id == "size") || (id == "channel.color") || (id == "channel.depth")
  || (id == "channel.albedo") || (id == "channel.normal").

(** The engine query [Frame::getProperty] makes for a property name. *)
Definition engine_query (name : string) (f : Frame) : option Call :=
  if name == "duration" then Some (ospGetTaskDuration (m_future f))
  else if name == "progress" then Some (ospGetProgress (m_future f))
  else if name == "variance" then Some (ospGetVariance (m_object f))
  else None.

(** The channel constant [Frame::map] passes to the engine for a channel
    name, and the pixel type it reports. *)
Definition map_target (K : Enums) (f : Frame) (channel : string) : option (Z * Z) :=
  if channel == "channel.color" then Some (OSP_FB_COLOR K, m_format f)
  else if channel == "channel.depth" then Some (OSP_FB_DEPTH K, ANARI_FLOAT32 K)
  else if channel == "channel.albedo" then Some (OSP_FB_ALBEDO K, ANARI_FLOAT32_VEC3 K)
  else if channel == "channel.normal" then Some (OSP_FB_NORMAL K, ANARI_FLOAT32_VEC3 K)
  else None.

Definition is_commit (op : Op) : bool :=
  match op with Commit => true | _ => false end.

(** How many commits a client program holds. *)
Definition commits (ops : list Op) : nat := List.length (filter is_commit ops).

Definition is_wait (c : Call) : bool :=
  match c with ospWait _ => true | _ => false end.

Definition is_submit (c : Call) : bool :=
  match c with ospRenderFrame _ _ _ _ => true | _ => false end.

Definition is_detach (c : Call) : bool :=
  match c with thread_detach _ => true | _ => false end.

(** Caller memory for whole scenarios: on top of [test_heap], the tag 1070
    at 700, three scene objects at 710, 720 and 730, a callback at 740 and
    the pair (4294967295, 2) at 800. *)
Definition scene_heap : Heap :=
  fun a => if a =? 700 then 1070
           else if a =? 710 then 31
           else if a =? 720 then 32
           else if a =? 730 then 33
           else if a =? 740 then 41
           else if a =? 800 then 4294967295
           else if a =? 804 then 2
           else test_heap a.

Definition scene_world (f : Frame) : World :=
  {| self := f; heap := scene_heap; trace := [] |}.

(** The parameter that enables an optional channel. *)
Definition channel_param (c : Channel) : option string :=
  match c with
  | Depth => Some "channel.depth"%string
  | Normal => Some "channel.normal"%string
  | Albedo => Some "channel.albedo"%string
  | _ => None
  end.

(** What a buffer is built from, with the buffer and the pending-rebuild
    flag. *)
Definition buffer_config (f : Frame) : Z * Z * Z * (bool * bool * bool) * bool * Z :=
  (m_size_x f, m_size_y f, m_format f,
   (m_depthBuffer f, m_normalBuffer f, m_albedoBuffer f),
   m_reconstructOnCommit f, m_object f).

(** A committed frame of 640 by 480 pixels: buffer 7, nothing pending, no
    callback. *)
Definition clean_frame : Frame := {|
  m_object := 7; m_future := 0;
  m_size_x := 640; m_size_y := 480; m_format := 1;
  m_depthBuffer := false; m_normalBuffer := false; m_albedoBuffer := false;
  m_reconstructOnCommit := false;
  m_renderer := 11; m_camera := 12; m_world := 13;
  m_continuation := 0; m_continuationPtr := 0
|}.

(** A call that sets a structural parameter, by its name. *)
Definition is_structural_set (op : Op) : bool :=
  match op with
  | SetParam _id _ _ => structural (setParam_id _id)
  | _ => false
  end.

(** How many such calls a client program holds. *)
Definition structural_sets (ops : list Op) : nat :=
  List.length (filter is_structural_set ops).

(** A pending rebuild counts as one buffer still to be created. *)
Definition pending (f : Frame) : nat := Nat.b2n (m_reconstructOnCommit f).

(** The scene reference a parameter name assigns, for the three names
    whose branch goes through [setNewHandle]. *)
Definition scene_reference (id : string) : option (Frame -> ptr) :=
  if id == "renderer" then Some m_renderer
  else if id == "camera" then Some m_camera
  else if id == "world" then Some m_world
  else None.

(** The calls into the engine. *)
Definition is_engine_call (c : Call) : bool :=
  match c with
  | ospRelease _ | ospWait _ | ospGetTaskDuration _ | ospGetProgress _
  | ospGetVariance _ | ospResetAccumulation _ | ospRenderFrame _ _ _ _
  | ospMapFrameBuffer _ _ | ospUnmapFrameBuffer _ _
  | ospNewFrameBuffer _ _ _ _ => true
  | _ => false
  end.

(** The calls a query may make: waits, the three task and buffer queries,
    the mapping calls and the base object's property lookup. *)
Definition is_query_call (c : Call) : bool :=
  match c with
  | ospWait _ | ospGetTaskDuration _ | ospGetProgress _ | ospGetVariance _
  | ospMapFrameBuffer _ _ | ospUnmapFrameBuffer _ _
  | Object_getProperty _ _ _ _ => true
  | _ => false
  end.

(** ** Proof automation *)

(** Comparisons of string literals are decided by evaluation. *)
Ltac eval_streq :=
  repeat match goal with
         | |- context [streq ?a ?b] =>
             let v := eval vm_compute in (streq a b) in
             match v with
             | true => idtac
             | false => idtac
             end;
             change (streq a b) with v
         end;
  cbn [andb orb].

Ltac run_monad :=
  unfold bind, this_frame, get_heap, assign, tell, store, throw, undefined,
    ret, when, log;
  cbn [self heap trace].

Ltac split_ifs :=
  repeat match goal with
         | |- context [if ?c then _ else _] => destruct c
         end.

Ltac frame_fields w :=
  cbn [state_of self]; destruct (self w); unfold keeps_enabled;
  cbn; auto.

(** * Properties *)

(** ** Auxiliary facts *)

Lemma streq_true (a b : string) : (a == b) = true <-> a = b.
Proof. unfold streq. apply String.eqb_eq. Qed.

Lemma nonzero_true (v : Z) : nonzero v = true <-> v <> 0.
Proof.
  unfold nonzero. rewrite negb_true_iff. apply Z.eqb_neq.
Qed.

Lemma nonzero_false (v : Z) : nonzero v = false <-> v = 0.
Proof.
  unfold nonzero. rewrite negb_false_iff. apply Z.eqb_eq.
Qed.

Lemma nonzero_lor (a b : Z) : nonzero (Z.lor a b) = nonzero a || nonzero b.
Proof.
  destruct (nonzero a) eqn:Ha; destruct (nonzero b) eqn:Hb; simpl;
    rewrite ?nonzero_true, ?nonzero_false in *;
    rewrite Z.lor_eq_0_iff; tauto.
Qed.

Lemma creates_app (a b : list Call) : creates (a ++ b) = (creates a + creates b)%nat.
Proof.
  unfold creates. rewrite filter_app, length_app. reflexivity.
Qed.

Lemma all_channels_complete (c : Channel) : In c all_channels.
Proof. destruct c; simpl; tauto. Qed.

Lemma channel_eqb_eq (a b : Channel) : channel_eqb a b = true <-> a = b.
Proof. destruct a, b; simpl; split; congruence. Qed.

Section ChannelMasks.

Variable K : Enums.
Hypothesis disjoint : channel_bits_disjoint K = true.

Lemma channel_bit_nonzero (a : Channel) : channel_bit K a <> 0.
Proof.
  unfold channel_bits_disjoint in disjoint.
  rewrite forallb_forall in disjoint.
  specialize (disjoint a (all_channels_complete a)).
  apply andb_true_iff in disjoint. apply nonzero_true. tauto.
Qed.

Lemma channel_bit_disjoint (a b : Channel) :
  a <> b -> Z.land (channel_bit K a) (channel_bit K b) = 0.
Proof.
  intros Hab.
  unfold channel_bits_disjoint in disjoint.
  rewrite forallb_forall in disjoint.
  specialize (disjoint a (all_channels_complete a)).
  apply andb_true_iff in disjoint. destruct disjoint as [_ Hall].
  rewrite forallb_forall in Hall.
  specialize (Hall b (all_channels_complete b)).
  apply orb_true_iff in Hall. destruct Hall as [Heq | Hz].
  - apply channel_eqb_eq in Heq. contradiction.
  - now apply Z.eqb_eq.
Qed.

Lemma in_mask_bit (a c : Channel) :
  in_mask K (channel_bit K a) c = channel_eqb a c.
Proof.
  unfold in_mask. destruct (channel_eqb a c) eqn:E.
  - apply channel_eqb_eq in E. subst c. rewrite Z.land_diag.
    apply nonzero_true, channel_bit_nonzero.
  - apply nonzero_false, channel_bit_disjoint.
    intros ->. destruct c; discriminate.
Qed.

(** A channel is in the union of a set exactly when it is one of the
    set's members. *)
Lemma in_mask_of (cs : list Channel) (c : Channel) :
  in_mask K (mask_of K cs) c = existsb (fun a => channel_eqb a c) cs.
Proof.
  induction cs as [| a cs IH]; simpl.
  - reflexivity.
  - rewrite <- IH, <- in_mask_bit. unfold in_mask.
    rewrite Z.land_lor_distr_l. apply nonzero_lor.
Qed.

End ChannelMasks.

Lemma member_channel_set (f : Frame) (c : Channel) :
  existsb (fun a => channel_eqb a c) (channel_set f) = wanted f c.
Proof.
  unfold channel_set.
  destruct f as [? ? ? ? ? dp nm al ? ? ? ? ? ?].
  destruct c, dp, nm, al; reflexivity.
Qed.

(** The mask [Frame::constructHandle] accumulates is the union of the
    wanted channels. *)
Lemma constructHandle_mask (K : Enums) (f : Frame) :
  (let channels := Z.lor (Z.lor (OSP_FB_COLOR K) (OSP_FB_ACCUM K)) (OSP_FB_VARIANCE K) in
   let channels := if m_depthBuffer f then Z.lor channels (OSP_FB_DEPTH K) else channels in
   let channels := if m_normalBuffer f then Z.lor channels (OSP_FB_NORMAL K) else channels in
   if m_albedoBuffer f then Z.lor channels (OSP_FB_ALBEDO K) else channels)
  = mask_of K (channel_set f).
Proof.
  unfold channel_set.
  destruct f as [? ? ? ? ? dp nm al ? ? ? ? ? ?].
  destruct dp, nm, al; cbn;
    apply Z.bits_inj'; intros n _;
    repeat rewrite Z.lor_spec; rewrite Z.testbit_0_l;
    repeat match goal with
           | |- context [Z.testbit ?x n] => destruct (Z.testbit x n)
           end; reflexivity.
Qed.

Lemma set_m_future_fields (v : Z) (f : Frame) :
  m_future (set_m_future v f) = v
  /\ m_continuation (set_m_future v f) = m_continuation f
  /\ m_continuationPtr (set_m_future v f) = m_continuationPtr f.
Proof. destruct f; repeat split. Qed.

(** ** Lazy reconstruction *)

Section Reconstruction.

Variable K : Enums.
Variable respond : list Call -> Call -> Z.
Variable enumCast : Z -> Z.

(** What [Frame::commit] does on a frame marked for reconstruction. *)
Lemma commit_dirty (w : World) :
  m_reconstructOnCommit (self w) = true ->
  let f := self w in
  let create := ospNewFrameBuffer (m_size_x f) (m_size_y f)
                  (enumCast (m_format f)) (mask_of K (channel_set f)) in
  let h := respond (trace w ++ [ospRelease (m_object f)]) create in
  commit K respond enumCast w =
    Ok tt {| self := set_m_reconstructOnCommit false (set_m_object h f);
             heap := heap w;
             trace := trace w ++ [ospRelease (m_object f); create; Object_commit] |}.
Proof.
  intros Hdirty. cbv zeta.
  unfold commit, bind, this_frame, when. rewrite Hdirty.
  unfold constructHandle, bind, this_frame, tell, ask, assign, log.
  cbn [self heap trace]. cbv zeta.
  pose proof (constructHandle_mask K (self w)) as Hmask. cbv zeta in Hmask.
  rewrite Hmask.
  repeat rewrite <- app_assoc. reflexivity.
Qed.

(** What [Frame::commit] does on a frame not marked for reconstruction. *)
Lemma commit_clean (w : World) :
  m_reconstructOnCommit (self w) = false ->
  commit K respond enumCast w = Ok tt (log Object_commit w).
Proof.
  intros Hclean.
  unfold commit, bind, this_frame, when. rewrite Hclean. reflexivity.
Qed.

End Reconstruction.

(** C5: a commit that finds [m_reconstructOnCommit] set releases the old
    buffer and asks the engine for a new one with the frame's current
    [m_size_x] and [m_size_y]; the channel mask it passes is the union of
    color, accumulation and variance with the optional channels (depth,
    normal, albedo) whose flag is set, and, the channel constants being
    disjoint bit sets, a channel is in the mask exactly when it is one of
    those. *)
Theorem commit_reconstructs_with_channel_union
    (K : Enums) (respond : list Call -> Call -> Z) (enumCast : Z -> Z)
    (w : World) :
  m_reconstructOnCommit (self w) = true ->
  exists (mask h : Z) (w' : World),
    commit K respond enumCast w = Ok tt w'
    /\ trace w' = trace w ++
         [ospRelease (m_object (self w));
          ospNewFrameBuffer (m_size_x (self w)) (m_size_y (self w))
            (enumCast (m_format (self w))) mask;
          Object_commit]
    /\ creates (trace w') = S (creates (trace w))
    /\ m_object (self w') = h
    /\ h = respond (trace w ++ [ospRelease (m_object (self w))])
             (ospNewFrameBuffer (m_size_x (self w)) (m_size_y (self w))
                (enumCast (m_format (self w))) mask)
    /\ mask = mask_of K (channel_set (self w))
    /\ (channel_bits_disjoint K = true ->
        forall c : Channel, in_mask K mask c = wanted (self w) c).
Proof.
  intros Hdirty.
  pose proof (commit_dirty K respond enumCast w Hdirty) as Hc. cbv zeta in Hc.
  eexists _, _, _. split; [exact Hc |].
  cbn [trace self].
  repeat split.
  - rewrite creates_app. cbn. lia.
  - destruct (self w); reflexivity.
  - intros Hbits c.
    rewrite (in_mask_of K Hbits). apply member_channel_set.
Qed.

(** C5 at a 64 by 48 frame with the depth channel enabled: the mask is
    color, depth, accumulation and variance. *)
Lemma commit_reconstructs_with_channel_union_witness :
  exists (mask h : Z) (w' : World),
    commit test_enums fresh (fun t => t) (world_of ready_frame) = Ok tt w'
    /\ trace w' = [ospRelease 7; ospNewFrameBuffer 64 48 1 mask; Object_commit]
    /\ creates (trace w') = 1%nat
    /\ m_object (self w') = h
    /\ mask = 15
    /\ (forall c : Channel, in_mask test_enums mask c = wanted ready_frame c).
Proof.
  destruct (commit_reconstructs_with_channel_union test_enums fresh (fun t => t)
              (world_of ready_frame) eq_refl)
    as (mask & h & w' & Hc & Htr & Hn & Hh & _ & Hmask & Hbits).
  exists mask, h, w'.
  split; [exact Hc |]. split; [exact Htr |]. split; [exact Hn |].
  split; [exact Hh |]. split; [exact Hmask |].
  exact (Hbits eq_refl).
Defined.

(** C6: of two commits in a row the second never reconstructs.  The first
    leaves [m_reconstructOnCommit] cleared, having asked for one buffer if
    the flag was set and none otherwise; the second only runs the base
    object's commit and leaves the frame's fields as they were. *)
Theorem second_commit_does_not_reconstruct
    (K : Enums) (respond : list Call -> Call -> Z) (enumCast : Z -> Z)
    (w : World) :
  exists w1 w2 : World,
    commit K respond enumCast w = Ok tt w1
    /\ commit K respond enumCast w1 = Ok tt w2
    /\ m_reconstructOnCommit (self w1) = false
    /\ creates (trace w1) =
         (creates (trace w) + if m_reconstructOnCommit (self w) then 1 else 0)%nat
    /\ trace w2 = trace w1 ++ [Object_commit]
    /\ creates (trace w2) = creates (trace w1)
    /\ self w2 = self w1.
Proof.
  destruct (m_reconstructOnCommit (self w)) eqn:Hflag.
  - pose proof (commit_dirty K respond enumCast w Hflag) as H1. cbv zeta in H1.
    eexists _, _. split; [exact H1 |].
    split; [apply commit_clean; cbn; destruct (self w); reflexivity |].
    cbn [log trace self]. repeat split.
    + destruct (self w); reflexivity.
    + rewrite creates_app. cbn. lia.
    + rewrite creates_app. cbn. lia.
  - pose proof (commit_clean K respond enumCast w Hflag) as H1.
    eexists _, _. split; [exact H1 |].
    split; [apply commit_clean; exact Hflag |].
    cbn [log trace self]. repeat split.
    + exact Hflag.
    + rewrite creates_app. cbn. lia.
    + rewrite creates_app. cbn. lia.
Qed.

(** ** Parameter ingestion *)

Section ParameterIngestion.

Variable K : Enums.

(** A recognized name with another type tag than the one tested for falls
    through to [Object::setParam], which gets the name as the caller
    wrote it. *)
Lemma setParam_mismatch (_id : string) (type : Z) (mem : ptr) (w : World)
    (ty : Z) :
  expected_type K (setParam_id _id) = Some ty ->
  type <> ty ->
  setParam K _id type mem w = Ok tt (log (Object_setParam _id type mem) w).
Proof.
  intros Hexp Hne.
  unfold setParam. cbv zeta.
  remember (setParam_id _id) as id eqn:Hid. clear Hid.
  unfold expected_type in Hexp.
  repeat match type of Hexp with
         | (if ?a == ?b then _ else _) = _ =>
             let E := fresh "E" in
             destruct (a == b) eqn:E;
             [ apply streq_true in E; subst id;
               injection Hexp as <-;
               apply Z.eqb_neq in Hne;
               eval_streq; rewrite ?Hne; run_monad; reflexivity
             | ]
         end.
  discriminate.
Qed.

(** [Frame::setParam] never runs into undefined behaviour, and throws only
    from the albedo and normal branches. *)
Lemma setParam_throws (_id : string) (type : Z) (mem : ptr) (w : World)
    (msg : string) (w' : World) :
  setParam K _id type mem w = Throw msg w' ->
  (setParam_id _id = "channel.albedo"%string
   \/ setParam_id _id = "channel.normal"%string)
  /\ type = ANARI_DATA_TYPE K
  /\ load_int (heap w) mem 0 <> ANARI_FLOAT32_VEC3 K
  /\ w' = w.
Proof.
  unfold setParam, setAsInt, setNewHandle. cbv zeta. run_monad.
  intros H.
  repeat match type of H with
         | (if ?c then _ else _) _ = _ =>
             let E := fresh "E" in
             destruct c eqn:E; try discriminate
         end.
  all: repeat match goal with
              | E : (_ && _) = true |- _ =>
                  apply andb_true_iff in E; destruct E as [? ?]
              | E : (_ == _) = true |- _ => apply streq_true in E
              | E : (_ =? _) = true |- _ => apply Z.eqb_eq in E
              | E : (_ =? _) = false |- _ => apply Z.eqb_neq in E
              end.
  all: injection H as _ <-; tauto.
Qed.

(** The albedo and normal branches throw when the tag read from the
    parameter data is not [ANARI_FLOAT32_VEC3]. *)
Lemma setParam_rejects (_id : string) (mem : ptr) (w : World) :
  setParam_id _id = "channel.albedo"%string
  \/ setParam_id _id = "channel.normal"%string ->
  load_int (heap w) mem 0 <> ANARI_FLOAT32_VEC3 K ->
  setParam K _id (ANARI_DATA_TYPE K) mem w =
    Throw (if setParam_id _id == "channel.albedo"
           then "Unsupported albedo type."
           else "Unsupported normal type.") w.
Proof.
  intros Hid Hty. apply Z.eqb_neq in Hty.
  unfold setParam. cbv zeta.
  destruct Hid as [-> | ->]; eval_streq; rewrite Z.eqb_refl; run_monad;
    rewrite Hty; reflexivity.
Qed.

End ParameterIngestion.

(** C3: setting [channel.albedo] or [channel.normal] (or the bare names
    [albedo], [normal]) with a type-tag value other than
    [ANARI_FLOAT32_VEC3] throws the unsupported-type error; the state at the
    throw is the state before the call, so [m_reconstructOnCommit] is as it
    was and a client that catches the error goes on from an unchanged
    frame. *)
Theorem unsupported_channel_type_is_rejected
    (K : Enums) (respond : list Call -> Call -> Z) (enumCast : Z -> Z)
    (handleOf : ptr -> Z) (_id : string) (mem : ptr) (w : World) :
  setParam_id _id = "channel.albedo"%string
  \/ setParam_id _id = "channel.normal"%string ->
  load_int (heap w) mem 0 <> ANARI_FLOAT32_VEC3 K ->
  exists msg : string,
    setParam K _id (ANARI_DATA_TYPE K) mem w = Throw msg w
    /\ (msg = "Unsupported albedo type."%string
        \/ msg = "Unsupported normal type."%string)
    /\ m_reconstructOnCommit
         (self (state_of (setParam K _id (ANARI_DATA_TYPE K) mem w)))
       = m_reconstructOnCommit (self w)
    /\ run K respond enumCast handleOf [SetParam _id (ANARI_DATA_TYPE K) mem] w = w.
Proof.
  intros Hid Hty.
  pose proof (setParam_rejects K _id mem w Hid Hty) as Hthrow.
  eexists. split; [exact Hthrow |].
  split; [destruct (setParam_id _id == "channel.albedo"); auto |].
  split.
  - rewrite Hthrow. reflexivity.
  - cbn [run exec]. rewrite Hthrow. reflexivity.
Qed.

(** C3 at the bare name [albedo] with the tag of a scalar float. *)
Lemma unsupported_channel_type_is_rejected_witness :
  exists msg : string,
    setParam test_enums "albedo" (ANARI_DATA_TYPE test_enums) 300
      (world_of new_frame) = Throw msg (world_of new_frame)
    /\ (msg = "Unsupported albedo type."%string
        \/ msg = "Unsupported normal type."%string)
    /\ m_reconstructOnCommit
         (self (state_of (setParam test_enums "albedo"
                            (ANARI_DATA_TYPE test_enums) 300 (world_of new_frame))))
       = m_reconstructOnCommit (self (world_of new_frame))
    /\ run test_enums silent (fun t => t) (fun p => p)
         [SetParam "albedo" (ANARI_DATA_TYPE test_enums) 300] (world_of new_frame)
       = world_of new_frame.
Proof.
  apply (unsupported_channel_type_is_rejected test_enums silent (fun t => t)
           (fun p => p) "albedo" 300 (world_of new_frame)).
  - left. reflexivity.
  - vm_compute. discriminate.
Defined.

(** C8: for a recognized name (after the rewriting of bare channel names) a
    call whose declared type tag is not the expected one changes neither the
    frame's fields nor caller memory and is handed to [Object::setParam];
    the only exceptions [Frame::setParam] raises come from the albedo and
    normal branches, with the declared tag [ANARI_DATA_TYPE] and a tag value
    other than [ANARI_FLOAT32_VEC3], and there it does raise. *)
Theorem type_mismatch_is_delegated
    (K : Enums) (_id : string) (type : Z) (mem : ptr) (w : World) :
  (forall ty : Z,
     expected_type K (setParam_id _id) = Some ty ->
     type <> ty ->
     exists w' : World,
       setParam K _id type mem w = Ok tt w'
       /\ self w' = self w
       /\ heap w' = heap w
       /\ trace w' = trace w ++ [Object_setParam _id type mem])
  /\ (forall (msg : string) (w' : World),
        setParam K _id type mem w = Throw msg w' ->
        (setParam_id _id = "channel.albedo"%string
         \/ setParam_id _id = "channel.normal"%string)
        /\ type = ANARI_DATA_TYPE K
        /\ load_int (heap w) mem 0 <> ANARI_FLOAT32_VEC3 K)
  /\ (setParam_id _id = "channel.albedo"%string
      \/ setParam_id _id = "channel.normal"%string ->
      type = ANARI_DATA_TYPE K ->
      load_int (heap w) mem 0 <> ANARI_FLOAT32_VEC3 K ->
      exists msg : string, setParam K _id type mem w = Throw msg w).
Proof.
  split; [| split].
  - intros ty Hexp Hne.
    eexists. split; [exact (setParam_mismatch K _id type mem w ty Hexp Hne) |].
    cbn. auto.
  - intros msg w' Hthrow.
    pose proof (setParam_throws K _id type mem w msg w' Hthrow). tauto.
  - intros Hid -> Hty. eexists. exact (setParam_rejects K _id mem w Hid Hty).
Qed.

(** C8 at [size] declared as a scalar float, which is delegated, and at the
    bare name [normal] with the tag of a scalar float as value, which is
    rejected. *)
Lemma type_mismatch_is_delegated_witness :
  (exists w' : World,
     setParam test_enums "size" (ANARI_FLOAT32 test_enums) 400 (world_of ready_frame)
       = Ok tt w'
     /\ self w' = ready_frame
     /\ heap w' = test_heap
     /\ trace w' = [Object_setParam "size" (ANARI_FLOAT32 test_enums) 400])
  /\ (exists msg : string,
        setParam test_enums "normal" (ANARI_DATA_TYPE test_enums) 300
          (world_of ready_frame) = Throw msg (world_of ready_frame)).
Proof.
  split.
  - destruct (type_mismatch_is_delegated test_enums "size"
                (ANARI_FLOAT32 test_enums) 400 (world_of ready_frame))
      as [Hdelegated _].
    apply (Hdelegated (ANARI_UINT32_VEC2 test_enums)).
    + reflexivity.
    + vm_compute. discriminate.
  - destruct (type_mismatch_is_delegated test_enums "normal"
                (ANARI_DATA_TYPE test_enums) 300 (world_of ready_frame))
      as (_ & _ & Hrejected).
    apply Hrejected.
    + right. reflexivity.
    + reflexivity.
    + vm_compute. discriminate.
Defined.

(** ** Render dispatch and completion notification *)

Section RenderDispatch.

Variable respond : list Call -> Call -> Z.
Variable handleOf : ptr -> Z.

(** A render on a frame whose scene references are set. *)
Lemma render_defined (this _d : ptr) (w : World) :
  scene_set (self w) = true ->
  let pre := render_prefix respond _d w in
  let fut := respond (trace w ++ pre) (render_submit handleOf w) in
  render respond handleOf this _d w =
    Ok tt {| self := set_m_future fut (self w);
             heap := heap w;
             trace := trace w ++ pre ++ [render_submit handleOf w]
                      ++ (if nonzero (m_continuation (self w))
                          then render_notify this _d fut else []) |}.
Proof.
  destruct w as [f h tr]. destruct f. unfold scene_set. cbn [self heap trace
    m_renderer m_camera m_world m_future m_object m_continuation].
  intros Hset.
  apply andb_true_iff in Hset. destruct Hset as [Hset Hw].
  apply andb_true_iff in Hset. destruct Hset as [Hr Hc].
  apply nonzero_true in Hr, Hc, Hw. apply Z.eqb_neq in Hr, Hc, Hw.
  cbv zeta.
  unfold render, render_prefix, render_submit, render_notify, deref, nullptr.
  unfold ask. run_monad.
  cbn [self heap trace m_renderer m_camera m_world m_future m_object
       m_continuation set_m_future].
  rewrite Hr, Hc, Hw.
  destruct (nonzero (respond (tr ++ [ospRelease m_future0]) (isModified _d)));
    run_monad;
    cbn [self heap trace m_future m_continuation set_m_future];
    destruct (nonzero m_continuation0);
    run_monad;
    cbn [self heap trace m_future set_m_future];
    repeat rewrite <- app_assoc; cbn [app]; reflexivity.
Qed.

(** A render on a frame with a null scene reference stops at the
    dereference, after the release and the reset. *)
Lemma render_null_scene (this _d : ptr) (w : World) :
  scene_set (self w) = false ->
  render respond handleOf this _d w =
    Undefined {| self := self w; heap := heap w;
                 trace := trace w ++ render_prefix respond _d w |}.
Proof.
  destruct w as [f h tr]. destruct f. unfold scene_set.
  cbn [self heap trace m_renderer m_camera m_world m_future m_object].
  intros Hset.
  unfold render, render_prefix, deref, nullptr.
  unfold ask. run_monad.
  cbn [self heap trace m_renderer m_camera m_world m_future m_object].
  unfold nonzero in Hset.
  destruct (nonzero (respond (tr ++ [ospRelease m_future0]) (isModified _d)));
    run_monad;
    (destruct (m_renderer0 =? 0);
     [| destruct (m_camera0 =? 0);
        [| destruct (m_world0 =? 0); [| discriminate Hset]]]);
    cbn [self heap trace]; repeat rewrite <- app_assoc; reflexivity.
Qed.

(** The detached thread, run on a frame whose callback is set. *)
Lemma thread_body_defined (th : Thread) (w : World) :
  nonzero (m_continuation (self w)) = true ->
  thread_body th w =
    Ok tt {| self := self w; heap := heap w;
             trace := trace w ++
               [continuation (m_continuation (self w))
                  (m_continuationPtr (self w)) (cap_d th) (cap_this th);
                refDec (cap_f th)] |}.
Proof.
  intros Hset. unfold thread_body. run_monad. rewrite Hset. run_monad.
  rewrite <- app_assoc. reflexivity.
Qed.

End RenderDispatch.

(** C4: every render first releases the previous task handle, then asks
    the device whether it was modified and resets the buffer's accumulation
    exactly when the answer is yes; with the scene references set it then
    submits the task with the buffer and the renderer, camera and world
    handles, and the handle the engine returns becomes [m_future].  The
    release of the old handle is the first call, so it precedes the
    replacement. *)
Theorem render_steps_in_order
    (respond : list Call -> Call -> Z) (handleOf : ptr -> Z)
    (this _d : ptr) (w : World) :
  let old := m_future (self w) in
  let modified := respond (trace w ++ [ospRelease old]) (isModified _d) in
  let pre := [ospRelease old; isModified _d]
             ++ (if nonzero modified
                 then [ospResetAccumulation (m_object (self w))] else []) in
  let submit := ospRenderFrame (m_object (self w))
                  (handleOf (m_renderer (self w)))
                  (handleOf (m_camera (self w)))
                  (handleOf (m_world (self w))) in
  (exists rest : list Call,
     trace (state_of (render respond handleOf this _d w)) = trace w ++ pre ++ rest)
  /\ (scene_set (self w) = true ->
      exists (rest : list Call) (w' : World),
        render respond handleOf this _d w = Ok tt w'
        /\ trace w' = trace w ++ pre ++ submit :: rest
        /\ m_future (self w') = respond (trace w ++ pre) submit
        /\ rest = (if nonzero (m_continuation (self w))
                   then render_notify this _d (m_future (self w')) else [])).
Proof.
  cbv zeta.
  assert (Hok : scene_set (self w) = true ->
    exists (rest : list Call) (w' : World),
      render respond handleOf this _d w = Ok tt w'
      /\ trace w' = trace w ++ render_prefix respond _d w
                    ++ render_submit handleOf w :: rest
      /\ m_future (self w') =
           respond (trace w ++ render_prefix respond _d w) (render_submit handleOf w)
      /\ rest = (if nonzero (m_continuation (self w))
                 then render_notify this _d (m_future (self w')) else [])).
  { intros Hset.
    pose proof (render_defined respond handleOf this _d w Hset) as Hr.
    cbv zeta in Hr.
    eexists _, _. split; [exact Hr |].
    cbn [self heap trace]. split; [reflexivity |].
    split; destruct (self w); reflexivity. }
  split; [| exact Hok].
  destruct (scene_set (self w)) eqn:Hset.
  - destruct (Hok eq_refl) as (rest & w' & Hr & Htr & _).
    rewrite Hr. cbn [state_of]. rewrite Htr.
    eexists. reflexivity.
  - rewrite (render_null_scene respond handleOf this _d w Hset).
    cbn [state_of trace]. exists []. rewrite app_nil_r. reflexivity.
Qed.

(** C4 on the 64 by 48 frame, with a device that reports a modification
    and an engine that returns the handle 1003 for the task. *)
Lemma render_steps_in_order_witness :
  exists (rest : list Call) (w' : World),
    render fresh (fun p => p) 50 60 (world_of ready_frame) = Ok tt w'
    /\ trace w' = [ospRelease 0; isModified 60; ospResetAccumulation 7;
                   ospRenderFrame 7 11 12 13] ++ rest
    /\ m_future (self w') = 1003.
Proof.
  destruct (render_steps_in_order fresh (fun p => p) 50 60 (world_of ready_frame))
    as [_ Hsubmit].
  destruct (Hsubmit eq_refl) as (rest & w' & Hr & Htr & Hfut & _).
  exists rest, w'. split; [exact Hr |]. split; [exact Htr | exact Hfut].
Defined.

(** A render with a callback registered ends in the wait, the reference
    and the detached thread. *)
Lemma render_with_callback
    (respond : list Call -> Call -> Z) (handleOf : ptr -> Z)
    (this _d : ptr) (w : World) :
  nonzero (m_continuation (self w)) = true ->
  scene_set (self w) = true ->
  let fut := respond (trace w ++ render_prefix respond _d w)
               (render_submit handleOf w) in
  render respond handleOf this _d w =
    Ok tt {| self := set_m_future fut (self w);
             heap := heap w;
             trace := trace w ++ render_prefix respond _d w
                      ++ [render_submit handleOf w; ospWait fut; refInc this;
                          thread_detach {| cap_this := this; cap_d := _d;
                                           cap_f := this |}] |}.
Proof.
  intros Hcb Hset.
  pose proof (render_defined respond handleOf this _d w Hset) as Hr.
  cbv zeta in Hr. rewrite Hcb in Hr. exact Hr.
Qed.

(** C7, as amended: with a callback registered (and the scene references
    set), render waits on the task it has just submitted, then takes a
    reference on the frame, then detaches the notification thread, in this
    order and as its last three calls; render itself never invokes the
    callback.  The detached thread reads the callback and the user data
    from the frame when it runs, in whatever state the client has left the
    frame by then: if the frame then holds a non-null callback, the thread
    invokes that callback exactly once, with the user data, the device and
    the frame, and drops the reference after the callback has returned; if
    the callback has been cleared, the thread is undefined and neither
    invokes a callback nor drops the reference. *)
Theorem completion_notification_order
    (respond : list Call -> Call -> Z) (handleOf : ptr -> Z)
    (this _d : ptr) (w : World) :
  nonzero (m_continuation (self w)) = true ->
  scene_set (self w) = true ->
  let th := {| cap_this := this; cap_d := _d; cap_f := this |} in
  exists (fut : Z) (w' : World),
    render respond handleOf this _d w = Ok tt w'
    /\ m_future (self w') = fut
    /\ trace w' = trace w ++ render_prefix respond _d w
                  ++ [render_submit handleOf w; ospWait fut; refInc this;
                      thread_detach th]
    /\ fut = respond (trace w ++ render_prefix respond _d w) (render_submit handleOf w)
    /\ filter is_continuation (trace w') = filter is_continuation (trace w)
    /\ m_continuation (self w') = m_continuation (self w)
    /\ m_continuationPtr (self w') = m_continuationPtr (self w)
    /\ forall w_run : World,
         (nonzero (m_continuation (self w_run)) = true ->
          thread_body th w_run
          = Ok tt {| self := self w_run; heap := heap w_run;
                     trace := trace w_run ++
                       [continuation (m_continuation (self w_run))
                          (m_continuationPtr (self w_run)) _d this;
                        refDec this] |})
         /\ (nonzero (m_continuation (self w_run)) = false ->
             thread_body th w_run = Undefined w_run).
Proof.
  intros Hcb Hset th.
  pose proof (render_with_callback respond handleOf this _d w Hcb Hset) as Hr.
  cbv zeta in Hr. fold th in Hr.
  set (fut := respond (trace w ++ render_prefix respond _d w)
                (render_submit handleOf w)) in *.
  destruct (set_m_future_fields fut (self w)) as (Hfut & Hfn & Hud).
  exists fut. eexists.
  split; [exact Hr |].
  cbn [self heap trace].
  split; [exact Hfut |].
  split; [reflexivity |].
  split; [reflexivity |].
  split.
  { rewrite filter_app. unfold render_prefix.
    destruct (nonzero (respond (trace w ++ [ospRelease (m_future (self w))])
                         (isModified _d)));
      cbn; apply app_nil_r. }
  split; [exact Hfn |].
  split; [exact Hud |].
  intros w_run. split; intros Hrun.
  - exact (thread_body_defined th w_run Hrun).
  - unfold thread_body. run_monad. rewrite Hrun. reflexivity.
Qed.

(** C7, as amended, on the 64 by 48 frame, whose callback is the function
    at 21: the thread run right after the render, and the thread run after
    the client has set the user data 100. *)
Lemma completion_notification_order_witness :
  exists (w' w1 w2 w3 : World),
    render fresh (fun p => p) 50 60 (world_of ready_frame) = Ok tt w'
    /\ trace w' = [ospRelease 0; isModified 60; ospResetAccumulation 7;
                   ospRenderFrame 7 11 12 13; ospWait 1003; refInc 50;
                   thread_detach {| cap_this := 50; cap_d := 60; cap_f := 50 |}]
    /\ thread_body {| cap_this := 50; cap_d := 60; cap_f := 50 |} w' = Ok tt w1
    /\ trace w1 = trace w' ++ [continuation 21 0 60 50; refDec 50]
    /\ setParam test_enums "frameCompletionCallbackUserData"
         (ANARI_VOID_POINTER test_enums) 100 w' = Ok tt w2
    /\ thread_body {| cap_this := 50; cap_d := 60; cap_f := 50 |} w2 = Ok tt w3
    /\ trace w3 = trace w' ++ [continuation 21 100 60 50; refDec 50].
Proof.
  destruct (completion_notification_order fresh (fun p => p) 50 60
              (world_of ready_frame) eq_refl eq_refl)
    as (fut & w' & Hr & Hfut & Htr & Hresp & _ & _ & _ & Hthread).
  assert (Hw' : w' = state_of (render fresh (fun p => p) 50 60 (world_of ready_frame)))
    by (rewrite Hr; reflexivity).
  exists w'.
  exists (state_of (thread_body {| cap_this := 50; cap_d := 60; cap_f := 50 |} w')).
  exists (state_of (setParam test_enums "frameCompletionCallbackUserData"
                      (ANARI_VOID_POINTER test_enums) 100 w')).
  exists (state_of (thread_body {| cap_this := 50; cap_d := 60; cap_f := 50 |}
                      (state_of (setParam test_enums "frameCompletionCallbackUserData"
                                   (ANARI_VOID_POINTER test_enums) 100 w')))).
  split; [exact Hr |].
  split; [rewrite Htr, Hresp; reflexivity |].
  destruct (Hthread w') as [Hrun1 _].
  rewrite Hrun1 by (rewrite Hw'; reflexivity).
  cbn [state_of trace].
  split; [reflexivity |].
  split; [rewrite Hw'; reflexivity |].
  split; [rewrite Hw'; reflexivity |].
  match goal with |- thread_body _ ?x = _ /\ _ => destruct (Hthread x) as [Hrun2 _] end.
  rewrite Hrun2 by (rewrite Hw'; reflexivity).
  cbn [state_of trace].
  split; [reflexivity |].
  rewrite Hw'. reflexivity.
Defined.

(** C7, as stated, fails: the 64 by 48 frame is rendered with the callback
    21 registered, so render waits on the task 1003, takes the reference
    and detaches the thread; before the thread runs the client sets the
    callback from address 900, which holds a null function pointer.  The
    thread then finds no callback: for this completed render the callback
    is invoked zero times and the reference is never dropped. *)
Lemma callback_cleared_before_thread_runs :
  exists w1 w2 : World,
    render fresh (fun p => p) 50 60 (world_of ready_frame) = Ok tt w1
    /\ m_continuation ready_frame = 21
    /\ In (ospWait 1003) (trace w1)
    /\ In (refInc 50) (trace w1)
    /\ In (thread_detach {| cap_this := 50; cap_d := 60; cap_f := 50 |}) (trace w1)
    /\ load_ptr (heap w1) 900 = nullptr
    /\ setParam test_enums "frameCompletionCallback"
         (ANARI_FRAME_COMPLETION_CALLBACK test_enums) 900 w1 = Ok tt w2
    /\ thread_body {| cap_this := 50; cap_d := 60; cap_f := 50 |} w2 = Undefined w2
    /\ filter is_continuation
         (trace (state_of (thread_body {| cap_this := 50; cap_d := 60; cap_f := 50 |}
                             w2))) = []
    /\ ~ In (refDec 50)
         (trace (state_of (thread_body {| cap_this := 50; cap_d := 60; cap_f := 50 |}
                             w2))).
Proof.
  eexists. eexists.
  split; [reflexivity |].
  split; [reflexivity |].
  split; [cbn; tauto |].
  split; [cbn; tauto |].
  split; [cbn; tauto |].
  split; [reflexivity |].
  split; [reflexivity |].
  split; [reflexivity |].
  split; [reflexivity |].
  cbn. intuition discriminate.
Qed.

(** C1, as amended: setting [frameCompletionCallbackUserData] with the tag
    [ANARI_VOID_POINTER] stores the data pointer [mem] itself in
    [m_continuationPtr], without reading what it points to; a render with a
    callback registered then detaches a thread whose callback invocation
    gets exactly that stored value as its first argument. *)
Theorem user_data_is_the_data_pointer
    (K : Enums) (respond : list Call -> Call -> Z) (handleOf : ptr -> Z)
    (mem this _d : ptr) (w : World) :
  exists w1 : World,
    setParam K "frameCompletionCallbackUserData" (ANARI_VOID_POINTER K) mem w
      = Ok tt w1
    /\ m_continuationPtr (self w1) = mem
    /\ heap w1 = heap w
    /\ trace w1 = trace w
    /\ (nonzero (m_continuation (self w)) = true ->
        scene_set (self w) = true ->
        let th := {| cap_this := this; cap_d := _d; cap_f := this |} in
        exists (before : list Call) (w2 w3 : World),
          render respond handleOf this _d w1 = Ok tt w2
          /\ trace w2 = before ++ [thread_detach th]
          /\ thread_body th w2 = Ok tt w3
          /\ trace w3 = trace w2 ++
               [continuation (m_continuation (self w)) mem _d this; refDec this]).
Proof.
  set (w1 := {| self := set_m_continuationPtr mem (self w);
                heap := heap w; trace := trace w |}).
  assert (Hfields : m_continuationPtr (self w1) = mem
                    /\ m_continuation (self w1) = m_continuation (self w)
                    /\ scene_set (self w1) = scene_set (self w)).
  { subst w1. cbn [self]. destruct (self w). repeat split. }
  destruct Hfields as (Hud & Hfn & Hscene).
  exists w1. split.
  { unfold setParam. cbv zeta. eval_streq. rewrite Z.eqb_refl. reflexivity. }
  split; [exact Hud |]. split; [reflexivity |]. split; [reflexivity |].
  intros Hcb Hset th.
  rewrite <- Hfn in Hcb. rewrite <- Hscene in Hset.
  pose proof (render_with_callback respond handleOf this _d w1 Hcb Hset) as Hr.
  cbv zeta in Hr. fold th in Hr.
  set (fut := respond (trace w1 ++ render_prefix respond _d w1)
                (render_submit handleOf w1)) in *.
  destruct (set_m_future_fields fut (self w1)) as (_ & Hfn2 & Hud2).
  match type of Hr with _ = Ok tt ?w2 =>
    assert (Ht : nonzero (m_continuation (self w2)) = true)
      by (cbn [self]; rewrite Hfn2; exact Hcb);
    apply (thread_body_defined th) in Ht
  end.
  cbn [self heap trace] in Ht. rewrite Hfn2, Hud2, Hfn, Hud in Ht.
  exists (trace w1 ++ render_prefix respond _d w1
          ++ [render_submit handleOf w1; ospWait fut; refInc this]).
  eexists. eexists.
  split; [exact Hr |].
  cbn [self heap trace].
  split.
  { repeat rewrite <- app_assoc. reflexivity. }
  split; [exact Ht |].
  reflexivity.
Qed.

(** C1, as amended, on the 64 by 48 frame with the data pointer 100. *)
Lemma user_data_is_the_data_pointer_witness :
  exists (w1 : World) (before : list Call) (w2 w3 : World),
    setParam test_enums "frameCompletionCallbackUserData"
      (ANARI_VOID_POINTER test_enums) 100 (world_of ready_frame) = Ok tt w1
    /\ render fresh (fun p => p) 50 60 w1 = Ok tt w2
    /\ trace w2 = before ++ [thread_detach {| cap_this := 50; cap_d := 60; cap_f := 50 |}]
    /\ thread_body {| cap_this := 50; cap_d := 60; cap_f := 50 |} w2 = Ok tt w3
    /\ trace w3 = trace w2 ++ [continuation 21 100 60 50; refDec 50].
Proof.
  destruct (user_data_is_the_data_pointer test_enums fresh (fun p => p)
              100 50 60 (world_of ready_frame))
    as (w1 & Hset & _ & _ & _ & Hfire).
  destruct (Hfire eq_refl eq_refl) as (before & w2 & w3 & Hr & Htr & Ht & Htr3).
  exists w1, before, w2, w3. repeat split; assumption.
Defined.

(** C1, as stated, fails: with the pointer 200 stored at the data address
    100, the value kept as user data is 100, the address, and not 200, the
    pointer carried in the data. *)
Lemma user_data_not_read_from_parameter_data :
  exists w1 : World,
    setParam test_enums "frameCompletionCallbackUserData"
      (ANARI_VOID_POINTER test_enums) 100 (world_of ready_frame) = Ok tt w1
    /\ load_ptr (heap (world_of ready_frame)) 100 = 200
    /\ m_continuationPtr (self w1) = 100
    /\ m_continuationPtr (self w1) <> load_ptr (heap (world_of ready_frame)) 100.
Proof.
  eexists. split; [reflexivity |].
  split; [reflexivity |]. split; [reflexivity |].
  vm_compute. discriminate.
Qed.

(** ** Property query *)

(** C2, as amended: a [variance] query of float type is answered from the
    buffer handle [m_object], after an optional wait on the task, only when
    the task handle [m_future] is not null; with a null task handle the
    query makes no engine call, writes nothing, and its answer is the base
    object's. *)
Theorem variance_query_needs_a_task
    (K : Enums) (respond : list Call -> Call -> Z)
    (p : ptr) (flags : Z) (w : World) :
  let f := self w in
  let waits := if nonzero (Z.land flags (ANARI_WAIT K))
               then [ospWait (m_future f)] else [] in
  let base := Object_getProperty "variance" (ANARI_FLOAT32 K) p flags in
  (nonzero (m_future f) = true ->
   exists w' : World,
     getProperty K respond "variance" (ANARI_FLOAT32 K) p flags w = Ok true w'
     /\ trace w' = trace w ++ waits ++ [ospGetVariance (m_object f)]
     /\ heap w' = upd (heap w) p
                    (respond (trace w ++ waits) (ospGetVariance (m_object f)))
     /\ self w' = self w)
  /\ (nonzero (m_future f) = false ->
      exists w' : World,
        getProperty K respond "variance" (ANARI_FLOAT32 K) p flags w
          = Ok (nonzero (respond (trace w) base)) w'
        /\ trace w' = trace w ++ [base]
        /\ heap w' = heap w
        /\ self w' = self w).
Proof.
  cbv zeta. split; intros Hfut.
  - unfold getProperty. run_monad. eval_streq. rewrite Z.eqb_refl, Hfut.
    cbn [andb]. unfold ask.
    destruct (nonzero (Z.land flags (ANARI_WAIT K))); run_monad;
      eexists; (split; [reflexivity |]); cbn [self heap trace];
      repeat split; rewrite ?app_nil_r; try reflexivity.
    rewrite <- app_assoc. reflexivity.
  - unfold getProperty. run_monad. eval_streq. rewrite Z.eqb_refl, Hfut.
    cbn [andb]. unfold ask. run_monad.
    eexists. split; [reflexivity |]. cbn [self heap trace]. repeat split.
Qed.

(** C2, as amended, on a frame whose task handle is 9 and on one without
    a task. *)
Lemma variance_query_needs_a_task_witness :
  (exists w' : World,
     getProperty test_enums fresh "variance" (ANARI_FLOAT32 test_enums) 500 0
       (world_of (set_m_future 9 ready_frame)) = Ok true w'
     /\ trace w' = [ospGetVariance 7]
     /\ heap w' 500 = 1000)
  /\ (exists w' : World,
        getProperty test_enums silent "variance" (ANARI_FLOAT32 test_enums) 500 0
          (world_of ready_frame) = Ok false w'
        /\ trace w' = [Object_getProperty "variance" (ANARI_FLOAT32 test_enums) 500 0]
        /\ heap w' = test_heap).
Proof.
  split.
  - destruct (variance_query_needs_a_task test_enums fresh 500 0
                (world_of (set_m_future 9 ready_frame))) as [Htask _].
    destruct (Htask eq_refl) as (w' & Hq & Htr & Hheap & _).
    exists w'. split; [exact Hq |]. split; [exact Htr |].
    rewrite Hheap. reflexivity.
  - destruct (variance_query_needs_a_task test_enums silent 500 0
                (world_of ready_frame)) as [_ Hnone].
    destruct (Hnone eq_refl) as (w' & Hq & Htr & Hheap & _).
    exists w'. split; [exact Hq |]. split; [exact Htr | exact Hheap].
Defined.

(** C2, as stated, fails: on a frame that has a buffer (handle 7) and no
    task, the float [variance] query does not reach the engine; it returns
    what the base object answers, here false, and writes no value. *)
Lemma variance_query_without_task_is_not_answered :
  exists w' : World,
    m_future ready_frame = nullptr
    /\ getProperty test_enums silent "variance" (ANARI_FLOAT32 test_enums) 500 0
         (world_of ready_frame) = Ok false w'
    /\ filter is_variance_query (trace w') = []
    /\ trace w' = [Object_getProperty "variance" (ANARI_FLOAT32 test_enums) 500 0]
    /\ heap w' = heap (world_of ready_frame).
Proof.
  eexists. split; [reflexivity |]. split; [reflexivity |].
  repeat split.
Qed.

(** ** Channel mapping *)

(** C9, as amended: for a channel name that does not resolve to one of
    [channel.color], [channel.depth], [channel.albedo], [channel.normal],
    map returns a null pointer, makes no engine call, leaves the frame's
    fields as they were and does not write the pixel type; the width and
    height out-parameters are written with the frame's size all the
    same. *)
Theorem map_unknown_channel_returns_null
    (K : Enums) (respond : list Call -> Call -> Z)
    (_channel : string) (width height pixelType : ptr) (w : World) :
  mappable (map_channel _channel) = false ->
  exists w' : World,
    map K respond _channel width height pixelType w = Ok nullptr w'
    /\ self w' = self w
    /\ trace w' = trace w
    /\ heap w' = upd (upd (heap w) width (to_uint32 (m_size_x (self w))))
                   height (to_uint32 (m_size_y (self w)))
    /\ (pixelType <> width -> pixelType <> height ->
        heap w' pixelType = heap w pixelType).
Proof.
  unfold mappable. intros Hun.
  apply orb_false_iff in Hun. destruct Hun as [Hun Hn].
  apply orb_false_iff in Hun. destruct Hun as [Hun Ha].
  apply orb_false_iff in Hun. destruct Hun as [Hc Hd].
  unfold map. cbv zeta. run_monad. rewrite Hc, Hd, Ha, Hn.
  eexists. split; [reflexivity |]. cbn [self heap trace].
  repeat split.
  intros Hw Hh. unfold upd.
  apply Z.eqb_neq in Hw, Hh. rewrite Hw, Hh. reflexivity.
Qed.

(** C9, as amended, at the name [bogus]. *)
Lemma map_unknown_channel_returns_null_witness :
  exists w' : World,
    map test_enums silent "bogus" 600 604 608 (world_of ready_frame) = Ok nullptr w'
    /\ self w' = ready_frame
    /\ trace w' = []
    /\ heap w' 608 = test_heap 608.
Proof.
  destruct (map_unknown_channel_returns_null test_enums silent "bogus" 600 604 608
              (world_of ready_frame) eq_refl)
    as (w' & Hm & Hself & Htr & _ & Hpt).
  exists w'. split; [exact Hm |]. split; [exact Hself |]. split; [exact Htr |].
  apply Hpt; discriminate.
Defined.

(** C9, as stated, fails: mapping the unknown name [bogus] on the 64 by 48
    frame returns null and yet writes 64 and 48 through the width and
    height out-pointers, which held 0. *)
Lemma map_unknown_channel_writes_size :
  exists w' : World,
    map test_enums silent "bogus" 600 604 608 (world_of ready_frame) = Ok nullptr w'
    /\ heap (world_of ready_frame) 600 = 0
    /\ heap (world_of ready_frame) 604 = 0
    /\ heap w' 600 = 64
    /\ heap w' 604 = 48.
Proof.
  exists (state_of (map test_enums silent "bogus" 600 604 608 (world_of ready_frame))).
  split; [vm_compute; reflexivity |]. repeat split.
Qed.

(** ** Channel enablement *)

Lemma keeps_enabled_refl (f : Frame) : keeps_enabled f f.
Proof. unfold keeps_enabled. tauto. Qed.

Lemma keeps_enabled_trans (f g h : Frame) :
  keeps_enabled f g -> keeps_enabled g h -> keeps_enabled f h.
Proof. unfold keeps_enabled. tauto. Qed.

Section ChannelEnablement.

Variable K : Enums.
Variable respond : list Call -> Call -> Z.
Variable enumCast : Z -> Z.
Variable handleOf : ptr -> Z.

Lemma setParam_keeps_enabled (_id : string) (type : Z) (mem : ptr) (w : World) :
  keeps_enabled (self w) (self (state_of (setParam K _id type mem w))).
Proof.
  unfold setParam, setAsInt, setNewHandle. cbv zeta. run_monad.
  split_ifs; frame_fields w.
Qed.

Lemma commit_keeps_enabled (w : World) :
  keeps_enabled (self w) (self (state_of (commit K respond enumCast w))).
Proof.
  destruct (m_reconstructOnCommit (self w)) eqn:Hflag.
  - rewrite (commit_dirty K respond enumCast w Hflag). frame_fields w.
  - rewrite (commit_clean K respond enumCast w Hflag). apply keeps_enabled_refl.
Qed.

Lemma render_keeps_enabled (this _d : ptr) (w : World) :
  keeps_enabled (self w) (self (state_of (render respond handleOf this _d w))).
Proof.
  destruct (scene_set (self w)) eqn:Hset.
  - rewrite (render_defined respond handleOf this _d w Hset). frame_fields w.
  - rewrite (render_null_scene respond handleOf this _d w Hset).
    apply keeps_enabled_refl.
Qed.

Lemma map_keeps_frame (_channel : string) (width height pixelType : ptr)
    (w : World) :
  self (state_of (map K respond _channel width height pixelType w)) = self w.
Proof.
  unfold map, ask. cbv zeta. run_monad. split_ifs; reflexivity.
Qed.

Lemma getProperty_keeps_frame (name : string) (type : Z) (p : ptr) (flags : Z)
    (w : World) :
  self (state_of (getProperty K respond name type p flags w)) = self w.
Proof.
  unfold getProperty, ask. run_monad. split_ifs; reflexivity.
Qed.

Lemma exec_keeps_enabled (op : Op) (w : World) :
  keeps_enabled (self w)
    (self (state_of (exec K respond enumCast handleOf op w))).
Proof.
  destruct op as [_id type mem | | this _d | ch wd ht pt | p | name type p flags];
    cbn [exec].
  - apply setParam_keeps_enabled.
  - apply commit_keeps_enabled.
  - apply render_keeps_enabled.
  - pose proof (map_keeps_frame ch wd ht pt w) as Hm.
    unfold bind. destruct (map K respond ch wd ht pt w);
      cbn [state_of] in *; unfold ret; cbn [state_of];
      rewrite Hm; apply keeps_enabled_refl.
  - apply keeps_enabled_refl.
  - pose proof (getProperty_keeps_frame name type p flags w) as Hg.
    unfold bind. destruct (getProperty K respond name type p flags w);
      cbn [state_of] in *; unfold ret; cbn [state_of];
      rewrite Hg; apply keeps_enabled_refl.
Qed.

End ChannelEnablement.

(** C10: an auxiliary channel flag that is true stays true through every
    sequence of setParam, commit, render, map, unmap and getProperty calls,
    whatever the engine, the device and the base object answer and whether
    or not some of the calls throw. *)
Theorem enabled_channels_stay_enabled
    (K : Enums) (respond : list Call -> Call -> Z) (enumCast : Z -> Z)
    (handleOf : ptr -> Z) (ops : list Op) (w : World) :
  (m_depthBuffer (self w) = true ->
   m_depthBuffer (self (run K respond enumCast handleOf ops w)) = true)
  /\ (m_normalBuffer (self w) = true ->
      m_normalBuffer (self (run K respond enumCast handleOf ops w)) = true)
  /\ (m_albedoBuffer (self w) = true ->
      m_albedoBuffer (self (run K respond enumCast handleOf ops w)) = true).
Proof.
  change (keeps_enabled (self w) (self (run K respond enumCast handleOf ops w))).
  revert w. induction ops as [| op rest IH]; intros w; cbn [run].
  - apply keeps_enabled_refl.
  - pose proof (exec_keeps_enabled K respond enumCast handleOf op w) as Hstep.
    destruct (exec K respond enumCast handleOf op w) as [[] w' | msg w' | w'];
      cbn [state_of] in Hstep.
    + eapply keeps_enabled_trans; [exact Hstep | apply IH].
    + eapply keeps_enabled_trans; [exact Hstep | apply IH].
    + exact Hstep.
Qed.

(** C10 on the 64 by 48 frame, whose depth channel is enabled, through a
    rejected albedo request, a resize, a commit, a render, a mapping and a
    property query. *)
Lemma enabled_channels_stay_enabled_witness :
  m_depthBuffer
    (self (run test_enums fresh (fun t => t) (fun p => p)
             [SetParam "albedo" (ANARI_DATA_TYPE test_enums) 300;
              SetParam "size" (ANARI_UINT32_VEC2 test_enums) 400;
              Commit;
              Render 50 60;
              Map "depth" 600 604 608;
              Unmap 1004;
              GetProperty "progress" (ANARI_FLOAT32 test_enums) 500 1]
             (world_of ready_frame))) = true.
Proof.
  destruct (enabled_channels_stay_enabled test_enums fresh (fun t => t) (fun p => p)
              [SetParam "albedo" (ANARI_DATA_TYPE test_enums) 300;
               SetParam "size" (ANARI_UINT32_VEC2 test_enums) 400;
               Commit;
               Render 50 60;
               Map "depth" 600 604 608;
               Unmap 1004;
               GetProperty "progress" (ANARI_FLOAT32 test_enums) 500 1]
              (world_of ready_frame)) as [Hdepth _].
  apply Hdepth. reflexivity.
Defined.

(** * Further properties of the unit *)

(** ** Names *)

Ltac eval_rewriting :=
  repeat match goal with
         | |- context [setParam_id ?s] =>
             let v := eval vm_compute in (setParam_id s) in
             progress change (setParam_id s) with v
         | |- context [map_channel ?s] =>
             let v := eval vm_compute in (map_channel s) in
             progress change (map_channel s) with v
         end.

Lemma bare_name_cases (s : string) :
  In s bare_names ->
  s = "color"%string \/ s = "depth"%string \/ s = "normal"%string
  \/ s = "albedo"%string.
Proof.
  unfold bare_names. cbn [In]. intuition auto.
Qed.

(** X1: [Frame::map] and [Frame::setParam] rewrite names alike although
    their chains test [normal] and [albedo] in opposite orders; the
    rewriting sends each of the four bare names to its [channel.] form and
    leaves every other name as it is, and applying it twice is applying it
    once. *)
Theorem name_rewriting_is_shared (s : string) :
  map_channel s = setParam_id s
  /\ setParam_id (setParam_id s) = setParam_id s
  /\ (In s bare_names -> setParam_id s = namespaced s)
  /\ (~ In s bare_names -> setParam_id s = s /\ map_channel s = s).
Proof.
  assert (Hshared : map_channel s = setParam_id s).
  { unfold map_channel, setParam_id.
    destruct (s == "color"); [reflexivity |].
    destruct (s == "depth"); [reflexivity |].
    destruct (s == "albedo") eqn:Ea; destruct (s == "normal") eqn:En;
      try reflexivity.
    apply streq_true in Ea, En. congruence. }
  split; [exact Hshared | split; [| split]].
  - unfold setParam_id at 2 3.
    destruct (s == "color") eqn:Ec; [reflexivity |].
    destruct (s == "depth") eqn:Ed; [reflexivity |].
    destruct (s == "normal") eqn:En; [reflexivity |].
    destruct (s == "albedo") eqn:Ea; [reflexivity |].
    unfold setParam_id. rewrite Ec, Ed, En, Ea. reflexivity.
  - intros Hs. apply bare_name_cases in Hs.
    destruct Hs as [-> | [-> | [-> | ->]]]; reflexivity.
  - intros Hother.
    assert (Hid : setParam_id s = s).
    { unfold setParam_id.
      destruct (s == "color") eqn:Ec;
        [apply streq_true in Ec; subst s; exfalso; apply Hother; cbn; tauto |].
      destruct (s == "depth") eqn:Ed;
        [apply streq_true in Ed; subst s; exfalso; apply Hother; cbn; tauto |].
      destruct (s == "normal") eqn:En;
        [apply streq_true in En; subst s; exfalso; apply Hother; cbn; tauto |].
      destruct (s == "albedo") eqn:Ea;
        [apply streq_true in Ea; subst s; exfalso; apply Hother; cbn; tauto |].
      reflexivity. }
    split; [exact Hid | rewrite Hshared; exact Hid].
Qed.

(** X1 at [albedo], which is rewritten, and at [size], which is not. *)
Lemma name_rewriting_is_shared_witness :
  setParam_id "albedo" = namespaced "albedo"
  /\ setParam_id "size" = "size"%string /\ map_channel "size" = "size"%string.
Proof.
  split.
  - destruct (name_rewriting_is_shared "albedo") as (_ & _ & Hbare & _).
    apply Hbare. simpl. tauto.
  - destruct (name_rewriting_is_shared "size") as (_ & _ & _ & Hother).
    apply Hother. simpl. intuition discriminate.
Defined.

(** X2: a channel parameter set under its bare name with the tag
    [ANARI_DATA_TYPE] behaves exactly as the same call under the [channel.]
    name; with any other declared tag the call goes to [Object::setParam]
    under the bare name the caller wrote, not the rewritten one. *)
Theorem bare_channel_parameter_is_an_alias
    (K : Enums) (_id : string) (type : Z) (mem : ptr) (w : World) :
  In _id bare_names ->
  (type = ANARI_DATA_TYPE K ->
   setParam K _id type mem w = setParam K (namespaced _id) type mem w)
  /\ (type <> ANARI_DATA_TYPE K ->
      setParam K _id type mem w = Ok tt (log (Object_setParam _id type mem) w)).
Proof.
  intros Hs. apply bare_name_cases in Hs. split.
  - intros ->.
    destruct Hs as [-> | [-> | [-> | ->]]];
      unfold setParam, namespaced; cbn [String.append]; cbv zeta;
      eval_rewriting; eval_streq; rewrite ?Z.eqb_refl; reflexivity.
  - intros Hne. apply (setParam_mismatch K _id type mem w (ANARI_DATA_TYPE K));
      [| exact Hne].
    destruct Hs as [-> | [-> | [-> | ->]]]; reflexivity.
Qed.

(** X2 at [depth]: accepted under the bare name, and delegated under the
    bare name when declared as a float. *)
Lemma bare_channel_parameter_is_an_alias_witness :
  setParam test_enums "depth" (ANARI_DATA_TYPE test_enums) 300 (world_of new_frame)
    = setParam test_enums "channel.depth" (ANARI_DATA_TYPE test_enums) 300
        (world_of new_frame)
  /\ setParam test_enums "depth" (ANARI_FLOAT32 test_enums) 300 (world_of new_frame)
     = Ok tt (log (Object_setParam "depth" (ANARI_FLOAT32 test_enums) 300)
                (world_of new_frame)).
Proof.
  split.
  - apply (bare_channel_parameter_is_an_alias test_enums "depth"
             (ANARI_DATA_TYPE test_enums) 300 (world_of new_frame));
      [simpl; tauto | reflexivity].
  - apply (bare_channel_parameter_is_an_alias test_enums "depth"
             (ANARI_FLOAT32 test_enums) 300 (world_of new_frame));
      [simpl; tauto | vm_compute; discriminate].
Defined.

(** X3: mapping a channel under its bare name is mapping it under its
    [channel.] name: same writes, same engine call, same result. *)
Theorem bare_channel_maps_as_namespaced
    (K : Enums) (respond : list Call -> Call -> Z)
    (_channel : string) (width height pixelType : ptr) (w : World) :
  In _channel bare_names ->
  map K respond _channel width height pixelType w
  = map K respond (namespaced _channel) width height pixelType w.
Proof.
  intros Hs. apply bare_name_cases in Hs.
  destruct Hs as [-> | [-> | [-> | ->]]];
    unfold map, namespaced; cbn [String.append]; cbv zeta;
    eval_rewriting; eval_streq; reflexivity.
Qed.

(** X3 at [normal]. *)
Lemma bare_channel_maps_as_namespaced_witness :
  map test_enums fresh "normal" 600 604 608 (world_of ready_frame)
  = map test_enums fresh "channel.normal" 600 604 608 (world_of ready_frame).
Proof.
  apply (bare_channel_maps_as_namespaced test_enums fresh "normal" 600 604 608
           (world_of ready_frame)).
  simpl. tauto.
Defined.

(** ** Parameters and the pending rebuild *)

Lemma to_uint32_to_int32 (v : Z) :
  0 <= v < 2 ^ 32 -> to_uint32 (to_int32 v) = v.
Proof.
  unfold to_uint32, to_int32.
  change (2 ^ 32) with 4294967296. change (2 ^ 31) with 2147483648.
  intros Hv. Z.div_mod_to_equations. lia.
Qed.

Lemma to_int32_high (v : Z) :
  2 ^ 31 <= v < 2 ^ 32 -> to_int32 v = v - 2 ^ 32.
Proof.
  unfold to_int32.
  change (2 ^ 32) with 4294967296. change (2 ^ 31) with 2147483648.
  intros Hv. Z.div_mod_to_equations. lia.
Qed.

Section Branches.

Variable K : Enums.

(** The branches of [Frame::setParam], one by one. *)
Lemma setParam_size (_id : string) (mem : ptr) (w : World) :
  setParam_id _id = "size"%string ->
  setParam K _id (ANARI_UINT32_VEC2 K) mem w =
    Ok tt {| self := set_m_reconstructOnCommit true
                       (set_m_size_y (load_int (heap w) mem 1)
                          (set_m_reconstructOnCommit true
                             (set_m_size_x (load_int (heap w) mem 0) (self w))));
             heap := heap w; trace := trace w |}.
Proof.
  intros Hid. unfold setParam. cbv zeta. rewrite Hid. eval_streq.
  rewrite Z.eqb_refl. reflexivity.
Qed.

Lemma setParam_color (_id : string) (mem : ptr) (w : World) :
  setParam_id _id = "channel.color"%string ->
  setParam K _id (ANARI_DATA_TYPE K) mem w =
    Ok tt {| self := set_m_reconstructOnCommit true
                       (set_m_format (load_int (heap w) mem 0) (self w));
             heap := heap w; trace := trace w |}.
Proof.
  intros Hid. unfold setParam. cbv zeta. rewrite Hid. eval_streq.
  rewrite Z.eqb_refl. reflexivity.
Qed.

Lemma setParam_depth (_id : string) (mem : ptr) (w : World) :
  setParam_id _id = "channel.depth"%string ->
  setParam K _id (ANARI_DATA_TYPE K) mem w =
    Ok tt {| self := set_m_depthBuffer true
                       (set_m_reconstructOnCommit true (self w));
             heap := heap w; trace := trace w |}.
Proof.
  intros Hid. unfold setParam. cbv zeta. rewrite Hid. eval_streq.
  rewrite Z.eqb_refl. reflexivity.
Qed.

Lemma setParam_albedo (_id : string) (mem : ptr) (w : World) :
  setParam_id _id = "channel.albedo"%string ->
  load_int (heap w) mem 0 = ANARI_FLOAT32_VEC3 K ->
  setParam K _id (ANARI_DATA_TYPE K) mem w =
    Ok tt {| self := set_m_albedoBuffer true
                       (set_m_reconstructOnCommit true (self w));
             heap := heap w; trace := trace w |}.
Proof.
  intros Hid Hty. apply Z.eqb_eq in Hty.
  unfold setParam. cbv zeta. rewrite Hid. eval_streq.
  rewrite Z.eqb_refl. run_monad. rewrite Hty. reflexivity.
Qed.

Lemma setParam_normal (_id : string) (mem : ptr) (w : World) :
  setParam_id _id = "channel.normal"%string ->
  load_int (heap w) mem 0 = ANARI_FLOAT32_VEC3 K ->
  setParam K _id (ANARI_DATA_TYPE K) mem w =
    Ok tt {| self := set_m_normalBuffer true
                       (set_m_reconstructOnCommit true (self w));
             heap := heap w; trace := trace w |}.
Proof.
  intros Hid Hty. apply Z.eqb_eq in Hty.
  unfold setParam. cbv zeta. rewrite Hid. eval_streq.
  rewrite Z.eqb_refl. run_monad. rewrite Hty. reflexivity.
Qed.

End Branches.

(** X4: [Frame::setParam] never writes caller memory and makes no engine
    call of its own.  A recognized name with the tag it is tested against
    makes no call out of the unit, whether it succeeds or throws, except
    [renderer], [camera] and [world], which make exactly the one
    smart-pointer assignment that releases the old object's share and
    acquires the new one; every other call (an unknown name, or a
    recognized one with another tag) is exactly one [Object::setParam] with
    the arguments as given. *)
Theorem setParam_outside_calls
    (K : Enums) (_id : string) (type : Z) (mem : ptr) (w : World) :
  heap (state_of (setParam K _id type mem w)) = heap w
  /\ filter is_engine_call (trace (state_of (setParam K _id type mem w)))
     = filter is_engine_call (trace w)
  /\ (expected_type K (setParam_id _id) = Some type ->
      trace (state_of (setParam K _id type mem w))
      = trace w ++
        match scene_reference (setParam_id _id) with
        | Some reference =>
            [IntrusivePtr_assign (reference (self w)) (load_ptr (heap w) mem)]
        | None => []
        end)
  /\ (expected_type K (setParam_id _id) <> Some type ->
      setParam K _id type mem w = Ok tt (log (Object_setParam _id type mem) w)).
Proof.
  split; [| split; [| split]].
  - unfold setParam, setAsInt, setNewHandle. cbv zeta. run_monad.
    split_ifs; reflexivity.
  - unfold setParam, setAsInt, setNewHandle. cbv zeta. run_monad.
    split_ifs; cbn [state_of trace]; rewrite ?filter_app; cbn;
      rewrite ?app_nil_r; reflexivity.
  - intros Hexp.
    unfold setParam. cbv zeta.
    remember (setParam_id _id) as id eqn:Hid. clear Hid.
    unfold expected_type in Hexp.
    repeat match type of Hexp with
           | (if ?a == ?b then _ else _) = _ =>
               let E := fresh "E" in
               destruct (a == b) eqn:E;
               [ apply streq_true in E; subst id;
                 injection Hexp as <-;
                 unfold scene_reference;
                 eval_streq; rewrite ?Z.eqb_refl;
                 unfold setAsInt, setNewHandle; run_monad;
                 split_ifs; cbn [state_of trace]; rewrite ?app_nil_r;
                 reflexivity
               | ]
           end.
    discriminate.
  - intros Hexp.
    destruct (expected_type K (setParam_id _id)) as [ty |] eqn:Hty.
    + apply (setParam_mismatch K _id type mem w ty Hty). congruence.
    + unfold setParam. cbv zeta.
      remember (setParam_id _id) as id eqn:Hid. clear Hid.
      unfold expected_type in Hty.
      repeat match type of Hty with
             | (if ?a == ?b then _ else _) = _ =>
                 let E := fresh "E" in
                 destruct (a == b) eqn:E; [discriminate |]
             end.
      repeat match goal with
             | E : (_ == _) = false |- _ => rewrite E; clear E
             end.
      reflexivity.
Qed.

(** X4 at an unknown name, which goes to the base object, at [size] with
    its own tag, which makes no call, and at [renderer] on a frame that
    holds the object 11, which is one assignment releasing 11 and
    acquiring 31. *)
Lemma setParam_outside_calls_witness :
  setParam test_enums "denoise" (ANARI_FLOAT32 test_enums) 300 (world_of new_frame)
    = Ok tt (log (Object_setParam "denoise" (ANARI_FLOAT32 test_enums) 300)
               (world_of new_frame))
  /\ trace (state_of (setParam test_enums "size" (ANARI_UINT32_VEC2 test_enums) 400
                        (world_of new_frame))) = []
  /\ trace (state_of (setParam test_enums "renderer" (ANARI_RENDERER test_enums) 710
                        (scene_world clean_frame))) = [IntrusivePtr_assign 11 31].
Proof.
  split; [| split].
  - apply (setParam_outside_calls test_enums "denoise"
             (ANARI_FLOAT32 test_enums) 300 (world_of new_frame)).
    vm_compute. discriminate.
  - apply (setParam_outside_calls test_enums "size"
             (ANARI_UINT32_VEC2 test_enums) 400 (world_of new_frame)).
    reflexivity.
  - apply (setParam_outside_calls test_enums "renderer"
             (ANARI_RENDERER test_enums) 710 (scene_world clean_frame)).
    reflexivity.
Defined.

(** X5: every accepted structural parameter (size, color, depth, albedo,
    normal) leaves [m_reconstructOnCommit] set, whether or not the value
    differs from the one the frame already has, so the next commit asks the
    engine for a buffer. *)
Theorem structural_parameter_forces_rebuild
    (K : Enums) (respond : list Call -> Call -> Z) (enumCast : Z -> Z)
    (_id : string) (type : Z) (mem : ptr) (w w1 : World) :
  structural (setParam_id _id) = true ->
  expected_type K (setParam_id _id) = Some type ->
  setParam K _id type mem w = Ok tt w1 ->
  m_reconstructOnCommit (self w1) = true
  /\ creates (trace (state_of (commit K respond enumCast w1)))
     = S (creates (trace w)).
Proof.
  intros Hst Hexp Hset.
  assert (Hflag : m_reconstructOnCommit (self w1) = true /\ trace w1 = trace w).
  { revert Hset. unfold setParam. cbv zeta.
    remember (setParam_id _id) as id eqn:Hid. clear Hid.
    unfold structural in Hst. unfold expected_type in Hexp.
    repeat match type of Hexp with
           | (if ?a == ?b then _ else _) = _ =>
               let E := fresh "E" in
               destruct (a == b) eqn:E;
               [ apply streq_true in E; subst id;
                 injection Hexp as <-;
                 try discriminate Hst;
                 eval_streq; rewrite ?Z.eqb_refl;
                 unfold setAsInt; run_monad; split_ifs;
                 intros Hset; try discriminate Hset;
                 injection Hset as <-; cbn [self trace];
                 destruct (self w); split; reflexivity
               | ]
           end.
    discriminate. }
  destruct Hflag as [Hflag Htr]. split; [exact Hflag |].
  rewrite (commit_dirty K respond enumCast w1 Hflag).
  cbn [state_of trace]. rewrite creates_app, Htr. cbn. lia.
Qed.

(** X5 on a committed 640 by 480 frame that is given the size it already
    has: only the flag changes, and the commit creates a buffer. *)
Lemma structural_parameter_forces_rebuild_witness :
  exists w1 : World,
    setParam test_enums "size" (ANARI_UINT32_VEC2 test_enums) 400
      (world_of clean_frame) = Ok tt w1
    /\ self w1 = set_m_reconstructOnCommit true clean_frame
    /\ creates (trace (state_of (commit test_enums fresh (fun t => t) w1))) = 1%nat.
Proof.
  eexists. split; [reflexivity |]. split; [reflexivity |].
  apply (structural_parameter_forces_rebuild test_enums fresh (fun t => t)
           "size" (ANARI_UINT32_VEC2 test_enums) 400 (world_of clean_frame));
    reflexivity.
Defined.

(** X6: a parameter that is not structural (renderer, camera, world, the
    callback, its user data, or any unknown name), with whatever tag,
    leaves the size, the format, the channel flags, the buffer handle and
    [m_reconstructOnCommit] as they were; it can neither request nor cancel
    a rebuild. *)
Theorem other_parameters_leave_buffer_configuration
    (K : Enums) (_id : string) (type : Z) (mem : ptr) (w : World) :
  structural (setParam_id _id) = false ->
  buffer_config (self (state_of (setParam K _id type mem w)))
  = buffer_config (self w).
Proof.
  unfold structural. intros Hst.
  apply orb_false_iff in Hst. destruct Hst as [Hst Hn].
  apply orb_false_iff in Hst. destruct Hst as [Hst Ha].
  apply orb_false_iff in Hst. destruct Hst as [Hst Hd].
  apply orb_false_iff in Hst. destruct Hst as [Hs Hc].
  unfold setParam, setNewHandle. cbv zeta.
  rewrite Hs, Hc, Hd, Ha, Hn. cbn [andb]. run_monad.
  split_ifs; cbn [state_of self]; destruct (self w); reflexivity.
Qed.

(** X6 at [renderer] on a committed frame. *)
Lemma other_parameters_leave_buffer_configuration_witness :
  buffer_config
    (self (state_of (setParam test_enums "renderer" (ANARI_RENDERER test_enums) 710
                       (scene_world clean_frame))))
  = buffer_config clean_frame.
Proof.
  apply (other_parameters_leave_buffer_configuration test_enums "renderer"
           (ANARI_RENDERER test_enums) 710 (scene_world clean_frame)).
  reflexivity.
Defined.

(** ** Size and channels, from the parameter to the buffer and the map *)

Lemma map_heap_trace (K : Enums) (respond : list Call -> Call -> Z)
    (_channel : string) (width height pixelType : ptr) (w : World) :
  width <> height -> pixelType <> width -> pixelType <> height ->
  let w' := state_of (map K respond _channel width height pixelType w) in
  self w' = self w
  /\ creates (trace w') = creates (trace w)
  /\ heap w' height = to_uint32 (m_size_y (self w))
  /\ heap w' width = to_uint32 (m_size_x (self w)).
Proof.
  intros Hwh Hpw Hph.
  assert (E1 : (height =? pixelType) = false) by (apply Z.eqb_neq; congruence).
  assert (E2 : (width =? pixelType) = false) by (apply Z.eqb_neq; congruence).
  assert (E3 : (width =? height) = false) by (apply Z.eqb_neq; congruence).
  cbv zeta. unfold map, ask. cbv zeta. run_monad.
  split_ifs; cbn [state_of self heap trace]; unfold upd;
    rewrite ?E1, ?E2, ?E3, ?Z.eqb_refl, ?creates_app;
    repeat split; cbn; lia.
Qed.

(** X7: a size given as two unsigned 32-bit values comes back unchanged
    through the width and height out-parameters of a later map of any
    channel name, although the frame keeps it in [int] fields; and without
    a commit in between the map still works on the old buffer: no buffer
    is created and the buffer handle is the one from before the resize. *)
Theorem size_round_trip_through_map
    (K : Enums) (respond : list Call -> Call -> Z)
    (mem : ptr) (_channel : string) (width height pixelType : ptr) (w : World) :
  0 <= heap w mem < 2 ^ 32 ->
  0 <= heap w (mem + 4) < 2 ^ 32 ->
  width <> height -> pixelType <> width -> pixelType <> height ->
  exists w1 : World,
    setParam K "size" (ANARI_UINT32_VEC2 K) mem w = Ok tt w1
    /\ heap (state_of (map K respond _channel width height pixelType w1)) width
       = heap w mem
    /\ heap (state_of (map K respond _channel width height pixelType w1)) height
       = heap w (mem + 4)
    /\ m_object (self (state_of (map K respond _channel width height pixelType w1)))
       = m_object (self w)
    /\ creates (trace (state_of (map K respond _channel width height pixelType w1)))
       = creates (trace w).
Proof.
  intros Hx Hy Hwh Hpw Hph.
  eexists. split; [apply (setParam_size K "size" mem w); reflexivity |].
  match goal with |- context [map K respond _channel width height pixelType ?w1] =>
    destruct (map_heap_trace K respond _channel width height pixelType w1
                Hwh Hpw Hph) as (Hself & Hcr & Hht & Hwd)
  end.
  cbn [self trace] in Hself, Hcr, Hht, Hwd.
  split.
  { rewrite Hwd. unfold load_int.
    replace (mem + 4 * 0) with mem by lia.
    destruct (self w); cbn. apply to_uint32_to_int32. exact Hx. }
  split.
  { rewrite Hht. unfold load_int.
    replace (mem + 4 * 1) with (mem + 4) by lia.
    destruct (self w); cbn. apply to_uint32_to_int32. exact Hy. }
  split.
  { rewrite Hself. destruct (self w); reflexivity. }
  exact Hcr.
Qed.

(** X7 at the size (4294967295, 2), mapped under [color]. *)
Lemma size_round_trip_through_map_witness :
  exists w1 : World,
    setParam test_enums "size" (ANARI_UINT32_VEC2 test_enums) 800
      (scene_world clean_frame) = Ok tt w1
    /\ heap (state_of (map test_enums fresh "color" 600 604 608 w1)) 600 = 4294967295
    /\ heap (state_of (map test_enums fresh "color" 600 604 608 w1)) 604 = 2
    /\ m_object (self (state_of (map test_enums fresh "color" 600 604 608 w1))) = 7
    /\ creates (trace (state_of (map test_enums fresh "color" 600 604 608 w1))) = 0%nat.
Proof.
  apply (size_round_trip_through_map test_enums fresh 800 "color" 600 604 608
           (scene_world clean_frame));
    vm_compute; intuition discriminate.
Defined.

(** X8: after a size parameter, a commit rebuilds the buffer whatever the
    flag was before: it releases the old buffer and asks for one with the
    two values read as [int], the current format and the current channels.
    A component of 2^31 or more therefore reaches the engine as a negative
    number. *)
Theorem size_reaches_engine_as_int
    (K : Enums) (respond : list Call -> Call -> Z) (enumCast : Z -> Z)
    (mem : ptr) (w : World) :
  (exists w1 w2 : World,
     setParam K "size" (ANARI_UINT32_VEC2 K) mem w = Ok tt w1
     /\ commit K respond enumCast w1 = Ok tt w2
     /\ trace w2 = trace w ++
          [ospRelease (m_object (self w));
           ospNewFrameBuffer (to_int32 (heap w mem)) (to_int32 (heap w (mem + 4)))
             (enumCast (m_format (self w))) (mask_of K (channel_set (self w)));
           Object_commit]
     /\ m_reconstructOnCommit (self w2) = false)
  /\ (2 ^ 31 <= heap w mem < 2 ^ 32 -> to_int32 (heap w mem) = heap w mem - 2 ^ 32).
Proof.
  split; [| apply to_int32_high].
  pose proof (setParam_size K "size" mem w eq_refl) as Hset.
  match type of Hset with _ = Ok tt ?w1 =>
    assert (Hflag : m_reconstructOnCommit (self w1) = true)
      by (cbn [self]; destruct (self w); reflexivity);
    pose proof (commit_dirty K respond enumCast w1 Hflag) as Hc
  end.
  cbv zeta in Hc. cbn [self heap trace] in Hc.
  eexists. eexists. split; [exact Hset |]. split; [exact Hc |].
  cbn [self heap trace]. unfold load_int.
  replace (mem + 4 * 0) with mem by lia.
  replace (mem + 4 * 1) with (mem + 4) by lia.
  split; destruct (self w); reflexivity.
Qed.

(** X8 at the size (4294967295, 2): the engine is asked for a buffer of
    width -1. *)
Lemma size_reaches_engine_as_int_witness :
  to_int32 (heap (scene_world clean_frame) 800) = -1.
Proof.
  destruct (size_reaches_engine_as_int test_enums fresh (fun t => t) 800
              (scene_world clean_frame)) as [_ Hneg].
  rewrite Hneg; [reflexivity | vm_compute; intuition discriminate].
Defined.

Lemma commit_after_enabling
    (K : Enums) (respond : list Call -> Call -> Z) (enumCast : Z -> Z)
    (set : bool -> Frame -> Frame) (w : World) :
  (forall f, buffer_config (set true (set_m_reconstructOnCommit true f))
             = (m_size_x f, m_size_y f, m_format f,
                (m_depthBuffer (set true f), m_normalBuffer (set true f),
                 m_albedoBuffer (set true f)), true, m_object f)) ->
  let w1 := {| self := set true (set_m_reconstructOnCommit true (self w));
               heap := heap w; trace := trace w |} in
  exists w2 : World,
    commit K respond enumCast w1 = Ok tt w2
    /\ trace w2 = trace w ++
         [ospRelease (m_object (self w));
          ospNewFrameBuffer (m_size_x (self w)) (m_size_y (self w))
            (enumCast (m_format (self w))) (mask_of K (channel_set (self w1)));
          Object_commit].
Proof.
  intros Hcfg w1.
  pose proof (Hcfg (self w)) as Hf. unfold buffer_config in Hf.
  injection Hf as Hx Hy Hfmt _ _ _ Hflag Hobj.
  pose proof (commit_dirty K respond enumCast w1 Hflag) as Hc.
  cbv zeta in Hc. cbn [self heap trace w1] in Hc.
  rewrite Hx, Hy, Hfmt, Hobj in Hc.
  eexists. split; [exact Hc |]. reflexivity.
Qed.

(** X9: enabling an optional channel and committing gives a buffer that
    holds it: the mask of the create call contains the channel, and every
    channel that was wanted before.  For albedo and normal the tag value
    must be [ANARI_FLOAT32_VEC3]; for depth the parameter data is not
    looked at, any tag value enables the channel. *)
Theorem enabled_channel_reaches_buffer
    (K : Enums) (respond : list Call -> Call -> Z) (enumCast : Z -> Z)
    (c : Channel) (id : string) (mem : ptr) (w : World) :
  channel_param c = Some id ->
  c = Depth \/ load_int (heap w) mem 0 = ANARI_FLOAT32_VEC3 K ->
  channel_bits_disjoint K = true ->
  exists (w1 w2 : World) (mask : Z),
    setParam K id (ANARI_DATA_TYPE K) mem w = Ok tt w1
    /\ commit K respond enumCast w1 = Ok tt w2
    /\ trace w2 = trace w ++
         [ospRelease (m_object (self w));
          ospNewFrameBuffer (m_size_x (self w)) (m_size_y (self w))
            (enumCast (m_format (self w))) mask;
          Object_commit]
    /\ in_mask K mask c = true
    /\ (forall c' : Channel, wanted (self w) c' = true -> in_mask K mask c' = true).
Proof.
  intros Hparam Hty Hbits.
  destruct c; try discriminate Hparam; injection Hparam as <-.
  - (* depth *)
    destruct (commit_after_enabling K respond enumCast set_m_depthBuffer w)
      as (w2 & Hc & Htr); [intros f; destruct f; reflexivity |].
    eexists _, w2, _. split; [apply setParam_depth; reflexivity |].
    split; [exact Hc |]. split; [exact Htr |].
    cbn [self]. split; [| intros c' Hc'];
      rewrite (in_mask_of K Hbits), member_channel_set;
      [| destruct c'; revert Hc']; destruct (self w); cbn; auto.
  - (* normal *)
    destruct Hty as [Hd | Hty]; [discriminate Hd |].
    destruct (commit_after_enabling K respond enumCast set_m_normalBuffer w)
      as (w2 & Hc & Htr); [intros f; destruct f; reflexivity |].
    eexists _, w2, _. split; [apply setParam_normal; [reflexivity | exact Hty] |].
    split; [exact Hc |]. split; [exact Htr |].
    cbn [self]. split; [| intros c' Hc'];
      rewrite (in_mask_of K Hbits), member_channel_set;
      [| destruct c'; revert Hc']; destruct (self w); cbn; auto.
  - (* albedo *)
    destruct Hty as [Hd | Hty]; [discriminate Hd |].
    destruct (commit_after_enabling K respond enumCast set_m_albedoBuffer w)
      as (w2 & Hc & Htr); [intros f; destruct f; reflexivity |].
    eexists _, w2, _. split; [apply setParam_albedo; [reflexivity | exact Hty] |].
    split; [exact Hc |]. split; [exact Htr |].
    cbn [self]. split; [| intros c' Hc'];
      rewrite (in_mask_of K Hbits), member_channel_set;
      [| destruct c'; revert Hc']; destruct (self w); cbn; auto.
Qed.

(** X9 at depth, requested with the tag of a scalar float as value, on a
    committed frame: the new buffer has color, depth, accumulation and
    variance. *)
Lemma enabled_channel_reaches_buffer_witness :
  exists (w1 w2 : World) (mask : Z),
    setParam test_enums "channel.depth" (ANARI_DATA_TYPE test_enums) 300
      (world_of clean_frame) = Ok tt w1
    /\ commit test_enums fresh (fun t => t) w1 = Ok tt w2
    /\ trace w2 = [ospRelease 7; ospNewFrameBuffer 640 480 1 mask; Object_commit]
    /\ in_mask test_enums mask Depth = true
    /\ (forall c' : Channel,
          wanted clean_frame c' = true -> in_mask test_enums mask c' = true).
Proof.
  apply (enabled_channel_reaches_buffer test_enums fresh (fun t => t) Depth
           "channel.depth" 300 (world_of clean_frame)).
  - reflexivity.
  - left. reflexivity.
  - reflexivity.
Defined.

(** ** Property queries *)

(** X10: a property query the frame cannot answer itself (a name other than
    duration, progress and variance, a type other than float, or no task
    handle) makes no engine call and writes nothing: it is exactly one
    [Object::getProperty] with the arguments as given, and the result is
    the base object's. *)
Theorem unanswered_query_goes_to_base
    (K : Enums) (respond : list Call -> Call -> Z)
    (name : string) (type : Z) (p : ptr) (flags : Z) (w : World) :
  engine_query name (self w) = None
  \/ type <> ANARI_FLOAT32 K
  \/ m_future (self w) = nullptr ->
  getProperty K respond name type p flags w
  = Ok (nonzero (respond (trace w) (Object_getProperty name type p flags)))
       (log (Object_getProperty name type p flags) w).
Proof.
  intros Hno. unfold getProperty. run_monad.
  destruct (name == "duration") eqn:E1;
    destruct (name == "progress") eqn:E2;
    destruct (name == "variance") eqn:E3;
    destruct (type =? ANARI_FLOAT32 K) eqn:Et;
    destruct (nonzero (m_future (self w))) eqn:Ef;
    cbn [andb]; try reflexivity; exfalso;
    (destruct Hno as [Hq | [Hty | Hfut]];
     [ unfold engine_query in Hq; rewrite ?E1, ?E2, ?E3 in Hq; discriminate Hq
     | apply Z.eqb_eq in Et; contradiction
     | apply nonzero_true in Ef; contradiction ]).
Qed.

(** X10 at a progress query on a frame that has never rendered. *)
Lemma unanswered_query_goes_to_base_witness :
  getProperty test_enums silent "progress" (ANARI_FLOAT32 test_enums) 500 1
    (world_of clean_frame)
  = Ok false (log (Object_getProperty "progress" (ANARI_FLOAT32 test_enums) 500 1)
                (world_of clean_frame)).
Proof.
  apply (unanswered_query_goes_to_base test_enums silent "progress"
           (ANARI_FLOAT32 test_enums) 500 1 (world_of clean_frame)).
  right. right. reflexivity.
Defined.

(** X11: with a task handle, a float query for duration, progress or
    variance succeeds: it waits on the task first exactly when the wait bit
    is set in the flags, then makes the one engine query (on the task for
    duration and progress, on the buffer for variance), stores the float at
    the output pointer and returns true, leaving the frame as it was. *)
Theorem task_query_is_answered
    (K : Enums) (respond : list Call -> Call -> Z)
    (name : string) (q : Call) (p : ptr) (flags : Z) (w : World) :
  engine_query name (self w) = Some q ->
  m_future (self w) <> nullptr ->
  let waits := if nonzero (Z.land flags (ANARI_WAIT K))
               then [ospWait (m_future (self w))] else [] in
  getProperty K respond name (ANARI_FLOAT32 K) p flags w
  = Ok true {| self := self w;
               heap := upd (heap w) p (respond (trace w ++ waits) q);
               trace := trace w ++ waits ++ [q] |}.
Proof.
  intros Hq Hfut. apply nonzero_true in Hfut. cbv zeta.
  unfold engine_query in Hq.
  destruct (name == "duration") eqn:E1;
    [| destruct (name == "progress") eqn:E2;
       [| destruct (name == "variance") eqn:E3; [| discriminate Hq]]];
    injection Hq as <-;
    match goal with E : (name == _) = true |- _ => apply streq_true in E; subst name end;
    unfold getProperty, ask; run_monad; eval_streq;
    rewrite Z.eqb_refl, Hfut; cbn [andb];
    destruct (nonzero (Z.land flags (ANARI_WAIT K)));
    run_monad; rewrite ?app_nil_r, <- ?app_assoc; reflexivity.
Qed.

(** X11 at a wait-qualified duration query on a frame whose task handle
    is 9. *)
Lemma task_query_is_answered_witness :
  exists w' : World,
    getProperty test_enums fresh "duration" (ANARI_FLOAT32 test_enums) 500 1
      (world_of (set_m_future 9 clean_frame)) = Ok true w'
    /\ trace w' = [ospWait 9; ospGetTaskDuration 9]
    /\ heap w' 500 = 1001.
Proof.
  eexists. split.
  - apply (task_query_is_answered test_enums fresh "duration"
             (ospGetTaskDuration 9) 500 1 (world_of (set_m_future 9 clean_frame)));
      [reflexivity | vm_compute; discriminate].
  - split; reflexivity.
Defined.

(** ** Scene references, callback and task handle across calls *)

Section MoreBranches.

Variable K : Enums.

Lemma setParam_renderer (mem : ptr) (w : World) :
  setParam K "renderer" (ANARI_RENDERER K) mem w =
    Ok tt {| self := set_m_renderer (load_ptr (heap w) mem) (self w);
             heap := heap w;
             trace := trace w ++
               [IntrusivePtr_assign (m_renderer (self w)) (load_ptr (heap w) mem)] |}.
Proof.
  unfold setParam. cbv zeta. eval_rewriting. eval_streq.
  rewrite Z.eqb_refl. reflexivity.
Qed.

Lemma setParam_camera (mem : ptr) (w : World) :
  setParam K "camera" (ANARI_CAMERA K) mem w =
    Ok tt {| self := set_m_camera (load_ptr (heap w) mem) (self w);
             heap := heap w;
             trace := trace w ++
               [IntrusivePtr_assign (m_camera (self w)) (load_ptr (heap w) mem)] |}.
Proof.
  unfold setParam. cbv zeta. eval_rewriting. eval_streq.
  rewrite Z.eqb_refl. reflexivity.
Qed.

Lemma setParam_world (mem : ptr) (w : World) :
  setParam K "world" (ANARI_WORLD K) mem w =
    Ok tt {| self := set_m_world (load_ptr (heap w) mem) (self w);
             heap := heap w;
             trace := trace w ++
               [IntrusivePtr_assign (m_world (self w)) (load_ptr (heap w) mem)] |}.
Proof.
  unfold setParam. cbv zeta. eval_rewriting. eval_streq.
  rewrite Z.eqb_refl. reflexivity.
Qed.

Lemma setParam_callback (mem : ptr) (w : World) :
  setParam K "frameCompletionCallback" (ANARI_FRAME_COMPLETION_CALLBACK K) mem w =
    Ok tt {| self := set_m_continuation (load_ptr (heap w) mem) (self w);
             heap := heap w; trace := trace w |}.
Proof.
  unfold setParam. cbv zeta. eval_rewriting. eval_streq.
  rewrite Z.eqb_refl. reflexivity.
Qed.

Lemma setParam_userData (mem : ptr) (w : World) :
  setParam K "frameCompletionCallbackUserData" (ANARI_VOID_POINTER K) mem w =
    Ok tt {| self := set_m_continuationPtr mem (self w);
             heap := heap w; trace := trace w |}.
Proof.
  unfold setParam. cbv zeta. eval_rewriting. eval_streq.
  rewrite Z.eqb_refl. reflexivity.
Qed.

End MoreBranches.

Lemma scene_set_set_m_future (v : Z) (f : Frame) :
  scene_set (set_m_future v f) = scene_set f.
Proof. destruct f; reflexivity. Qed.

(** X12: the handle the engine returns for a submitted task is what
    [Frame::future] then reports, what the destructor releases, and what
    the next render releases as its first call, before it submits
    again. *)
Theorem task_handle_is_handed_back
    (respond : list Call -> Call -> Z) (handleOf : ptr -> Z)
    (this _d this' _d' : ptr) (w : World) :
  scene_set (self w) = true ->
  exists (w1 : World) (fut : Z),
    render respond handleOf this _d w = Ok tt w1
    /\ fut = respond (trace w ++ render_prefix respond _d w)
               (render_submit handleOf w)
    /\ future w1 = Ok fut w1
    /\ destroy w1 = Ok tt (log (ospRelease fut) w1)
    /\ exists rest : list Call,
         trace (state_of (render respond handleOf this' _d' w1))
         = trace w1 ++ ospRelease fut :: rest.
Proof.
  intros Hset.
  pose proof (render_defined respond handleOf this _d w Hset) as Hr.
  cbv zeta in Hr.
  set (fut := respond (trace w ++ render_prefix respond _d w)
                (render_submit handleOf w)) in *.
  destruct (set_m_future_fields fut (self w)) as (Hfut & _ & _).
  match type of Hr with _ = Ok tt ?x => set (w1 := x) in * end.
  assert (Hfut1 : m_future (self w1) = fut) by exact Hfut.
  assert (Hset1 : scene_set (self w1) = true).
  { unfold w1. cbn [self]. rewrite scene_set_set_m_future. exact Hset. }
  exists w1, fut. split; [exact Hr |]. split; [reflexivity |].
  split.
  { unfold future. run_monad. rewrite Hfut1. reflexivity. }
  split.
  { unfold destroy. run_monad. rewrite Hfut1. reflexivity. }
  rewrite (render_defined respond handleOf this' _d' w1 Hset1).
  cbn [state_of trace]. unfold render_prefix. rewrite Hfut1.
  cbn [app]. eexists. reflexivity.
Qed.

(** X12 on the committed 640 by 480 frame: the task gets the handle 1003. *)
Lemma task_handle_is_handed_back_witness :
  exists (w1 : World) (rest : list Call),
    render fresh (fun p => p) 50 60 (world_of clean_frame) = Ok tt w1
    /\ future w1 = Ok 1003 w1
    /\ destroy w1 = Ok tt (log (ospRelease 1003) w1)
    /\ trace (state_of (render fresh (fun p => p) 50 60 w1))
       = trace w1 ++ ospRelease 1003 :: rest.
Proof.
  destruct (task_handle_is_handed_back fresh (fun p => p) 50 60 50 60
              (world_of clean_frame) eq_refl)
    as (w1 & fut & Hr & Hfut & Hf & Hd & rest & Htr).
  subst fut.
  exists w1, rest. repeat split; assumption.
Defined.

(** X13: a render on a frame whose renderer, camera or world reference is
    null is undefined, and by then the previous task handle is already
    released: no task is submitted and [m_future] still holds the released
    handle. *)
Theorem render_with_missing_scene_object
    (respond : list Call -> Call -> Z) (handleOf : ptr -> Z)
    (this _d : ptr) (w : World) :
  scene_set (self w) = false ->
  exists (w' : World) (rest : list Call),
    render respond handleOf this _d w = Undefined w'
    /\ self w' = self w
    /\ trace w' = trace w ++ ospRelease (m_future (self w)) :: rest
    /\ filter is_submit (trace w') = filter is_submit (trace w).
Proof.
  intros Hset.
  rewrite (render_null_scene respond handleOf this _d w Hset).
  eexists. eexists. split; [reflexivity |]. cbn [self trace].
  split; [reflexivity |].
  unfold render_prefix. cbn [app].
  split; [reflexivity |].
  rewrite filter_app.
  destruct (nonzero (respond (trace w ++ [ospRelease (m_future (self w))])
                       (isModified _d))); cbn; apply app_nil_r.
Qed.

(** X13 on a frame without scene references whose task handle is 9. *)
Lemma render_with_missing_scene_object_witness :
  exists (w' : World) (rest : list Call),
    render silent (fun p => p) 50 60 (world_of (set_m_future 9 new_frame))
      = Undefined w'
    /\ m_future (self w') = 9
    /\ trace w' = ospRelease 9 :: rest.
Proof.
  destruct (render_with_missing_scene_object silent (fun p => p) 50 60
              (world_of (set_m_future 9 new_frame)) eq_refl)
    as (w' & rest & Hr & Hself & Htr & _).
  exists w', rest. split; [exact Hr |]. split; [rewrite Hself; reflexivity |].
  exact Htr.
Defined.

(** X14: the detached thread reads the callback and its user data from the
    frame when it runs, not when render detached it: user data set after
    the render has returned and before the thread runs is what the
    callback receives. *)
Theorem notification_reads_frame_when_it_runs
    (K : Enums) (respond : list Call -> Call -> Z) (handleOf : ptr -> Z)
    (this _d mem' : ptr) (w : World) :
  nonzero (m_continuation (self w)) = true ->
  scene_set (self w) = true ->
  let th := {| cap_this := this; cap_d := _d; cap_f := this |} in
  exists w1 w2 w3 : World,
    render respond handleOf this _d w = Ok tt w1
    /\ setParam K "frameCompletionCallbackUserData" (ANARI_VOID_POINTER K) mem' w1
       = Ok tt w2
    /\ thread_body th w2 = Ok tt w3
    /\ trace w3 = trace w1 ++
         [continuation (m_continuation (self w)) mem' _d this; refDec this].
Proof.
  intros Hcb Hset th.
  pose proof (render_with_callback respond handleOf this _d w Hcb Hset) as Hr.
  cbv zeta in Hr.
  match type of Hr with _ = Ok tt ?x => set (w1 := x) in * end.
  pose proof (setParam_userData K mem' w1) as Hs.
  match type of Hs with _ = Ok tt ?x => set (w2 := x) in * end.
  assert (Hfields : m_continuation (self w2) = m_continuation (self w)
                    /\ m_continuationPtr (self w2) = mem').
  { unfold w2, w1. cbn [self]. destruct (self w). split; reflexivity. }
  destruct Hfields as [Hfn Hud].
  assert (Hcb2 : nonzero (m_continuation (self w2)) = true)
    by (rewrite Hfn; exact Hcb).
  pose proof (thread_body_defined th w2 Hcb2) as Ht.
  rewrite Hfn, Hud in Ht.
  exists w1, w2. eexists.
  split; [exact Hr |]. split; [exact Hs |]. split; [exact Ht |].
  reflexivity.
Qed.

(** X14 on the 64 by 48 frame: the user data is 0 at the render and 100
    when the thread runs. *)
Lemma notification_reads_frame_when_it_runs_witness :
  exists w1 w2 w3 : World,
    render fresh (fun p => p) 50 60 (world_of ready_frame) = Ok tt w1
    /\ setParam test_enums "frameCompletionCallbackUserData"
         (ANARI_VOID_POINTER test_enums) 100 w1 = Ok tt w2
    /\ thread_body {| cap_this := 50; cap_d := 60; cap_f := 50 |} w2 = Ok tt w3
    /\ trace w3 = trace w1 ++ [continuation 21 100 60 50; refDec 50].
Proof.
  apply (notification_reads_frame_when_it_runs test_enums fresh (fun p => p)
           50 60 100 (world_of ready_frame)); reflexivity.
Defined.

(** X15: if the callback is unregistered (set to a null function pointer)
    after a render detached its thread and before the thread runs, the
    thread calls through the null pointer: it is undefined, no callback is
    invoked and the reference render took on the frame is not dropped. *)
Theorem unregistering_before_notification_is_undefined
    (K : Enums) (respond : list Call -> Call -> Z) (handleOf : ptr -> Z)
    (this _d mem' : ptr) (w : World) :
  nonzero (m_continuation (self w)) = true ->
  scene_set (self w) = true ->
  load_ptr (heap w) mem' = nullptr ->
  let th := {| cap_this := this; cap_d := _d; cap_f := this |} in
  exists w1 w2 : World,
    render respond handleOf this _d w = Ok tt w1
    /\ In (refInc this) (trace w1)
    /\ setParam K "frameCompletionCallback" (ANARI_FRAME_COMPLETION_CALLBACK K)
         mem' w1 = Ok tt w2
    /\ thread_body th w2 = Undefined w2
    /\ trace w2 = trace w1.
Proof.
  intros Hcb Hset Hnull th.
  pose proof (render_with_callback respond handleOf this _d w Hcb Hset) as Hr.
  cbv zeta in Hr.
  match type of Hr with _ = Ok tt ?x => set (w1 := x) in * end.
  pose proof (setParam_callback K mem' w1) as Hs.
  match type of Hs with _ = Ok tt ?x => set (w2 := x) in * end.
  assert (Hfn : m_continuation (self w2) = nullptr).
  { unfold w2, w1. cbn [self heap]. rewrite Hnull.
    destruct (self w). reflexivity. }
  exists w1, w2.
  split; [exact Hr |].
  split.
  { unfold w1. cbn [trace]. apply in_or_app. right. apply in_or_app. right.
    cbn. tauto. }
  split; [exact Hs |].
  split; [| reflexivity].
  unfold thread_body. run_monad. rewrite Hfn. reflexivity.
Qed.

(** X15 on the 64 by 48 frame, with the null function pointer held at
    address 900. *)
Lemma unregistering_before_notification_is_undefined_witness :
  exists w1 w2 : World,
    render fresh (fun p => p) 50 60 (world_of ready_frame) = Ok tt w1
    /\ In (refInc 50) (trace w1)
    /\ setParam test_enums "frameCompletionCallback"
         (ANARI_FRAME_COMPLETION_CALLBACK test_enums) 900 w1 = Ok tt w2
    /\ thread_body {| cap_this := 50; cap_d := 60; cap_f := 50 |} w2 = Undefined w2
    /\ trace w2 = trace w1.
Proof.
  apply (unregistering_before_notification_is_undefined test_enums fresh
           (fun p => p) 50 60 900 (world_of ready_frame)); reflexivity.
Defined.

(** X16: the callback parameter is read through the data pointer, and it
    decides what the next render does after submitting: with a non-null
    function pointer render waits, takes a reference and detaches the
    thread; with a null one the submission is its last call. *)
Theorem callback_parameter_switches_notification
    (K : Enums) (respond : list Call -> Call -> Z) (handleOf : ptr -> Z)
    (this _d mem : ptr) (w : World) :
  scene_set (self w) = true ->
  exists w1 w2 : World,
    setParam K "frameCompletionCallback" (ANARI_FRAME_COMPLETION_CALLBACK K) mem w
      = Ok tt w1
    /\ m_continuation (self w1) = load_ptr (heap w) mem
    /\ render respond handleOf this _d w1 = Ok tt w2
    /\ trace w2 = trace w ++ render_prefix respond _d w
                  ++ [render_submit handleOf w]
                  ++ (if nonzero (load_ptr (heap w) mem)
                      then render_notify this _d (m_future (self w2))
                      else []).
Proof.
  intros Hset.
  pose proof (setParam_callback K mem w) as Hs.
  match type of Hs with _ = Ok tt ?x => set (w1 := x) in * end.
  assert (Hfields : m_continuation (self w1) = load_ptr (heap w) mem
                    /\ scene_set (self w1) = true
                    /\ render_prefix respond _d w1 = render_prefix respond _d w
                    /\ render_submit handleOf w1 = render_submit handleOf w).
  { unfold render_prefix, render_submit, w1. cbn [self heap trace].
    revert Hset. destruct (self w). cbn. auto. }
  destruct Hfields as (Hfn & Hset1 & Hpre & Hsub).
  pose proof (render_defined respond handleOf this _d w1 Hset1) as Hr.
  cbv zeta in Hr. rewrite Hfn, Hpre, Hsub in Hr.
  exists w1. eexists.
  split; [exact Hs |]. split; [exact Hfn |]. split; [exact Hr |].
  cbn [self trace].
  destruct (set_m_future_fields
              (respond (trace w1 ++ render_prefix respond _d w)
                 (render_submit handleOf w)) (self w1)) as (Hfut & _ & _).
  rewrite Hfut. reflexivity.
Qed.

(** X16 on the committed frame: registering the callback stored at 740,
    and registering the null function pointer stored at 900. *)
Lemma callback_parameter_switches_notification_witness :
  (exists w1 w2 : World,
     setParam test_enums "frameCompletionCallback"
       (ANARI_FRAME_COMPLETION_CALLBACK test_enums) 740 (scene_world clean_frame)
       = Ok tt w1
     /\ render fresh (fun p => p) 50 60 w1 = Ok tt w2
     /\ trace w2 = [ospRelease 0; isModified 60; ospResetAccumulation 7;
                    ospRenderFrame 7 11 12 13; ospWait 1003; refInc 50;
                    thread_detach {| cap_this := 50; cap_d := 60; cap_f := 50 |}])
  /\ (exists w1 w2 : World,
        setParam test_enums "frameCompletionCallback"
          (ANARI_FRAME_COMPLETION_CALLBACK test_enums) 900 (scene_world ready_frame)
          = Ok tt w1
        /\ render fresh (fun p => p) 50 60 w1 = Ok tt w2
        /\ trace w2 = [ospRelease 0; isModified 60; ospResetAccumulation 7;
                       ospRenderFrame 7 11 12 13]).
Proof.
  split.
  - destruct (callback_parameter_switches_notification test_enums fresh
                (fun p => p) 50 60 740 (scene_world clean_frame) eq_refl)
      as (w1 & w2 & Hs & _ & Hr & Htr).
    exists w1, w2. split; [exact Hs |]. split; [exact Hr |].
    rewrite Htr.
    assert (Hfut : m_future (self w2) = 1003).
    { revert Hr. injection Hs as <-. intros Hr. vm_compute in Hr.
      injection Hr as <-. reflexivity. }
    rewrite Hfut. reflexivity.
  - destruct (callback_parameter_switches_notification test_enums fresh
                (fun p => p) 50 60 900 (scene_world ready_frame) eq_refl)
      as (w1 & w2 & Hs & _ & Hr & Htr).
    exists w1, w2. split; [exact Hs |]. split; [exact Hr |].
    rewrite Htr. reflexivity.
Defined.

(** X17: scene objects set through the renderer, camera and world
    parameters are read through the data pointers, and the next render
    submits the task with the frame's buffer and the engine handles of
    exactly these three objects. *)
Theorem scene_parameters_reach_submit
    (K : Enums) (respond : list Call -> Call -> Z) (handleOf : ptr -> Z)
    (this _d mr mc mw : ptr) (w : World) :
  load_ptr (heap w) mr <> nullptr ->
  load_ptr (heap w) mc <> nullptr ->
  load_ptr (heap w) mw <> nullptr ->
  exists w1 w2 w3 w4 : World,
    setParam K "renderer" (ANARI_RENDERER K) mr w = Ok tt w1
    /\ setParam K "camera" (ANARI_CAMERA K) mc w1 = Ok tt w2
    /\ setParam K "world" (ANARI_WORLD K) mw w2 = Ok tt w3
    /\ render respond handleOf this _d w3 = Ok tt w4
    /\ In (ospRenderFrame (m_object (self w))
             (handleOf (load_ptr (heap w) mr))
             (handleOf (load_ptr (heap w) mc))
             (handleOf (load_ptr (heap w) mw))) (trace w4)
    /\ filter is_submit (trace w4)
       = filter is_submit (trace w) ++
           [ospRenderFrame (m_object (self w))
              (handleOf (load_ptr (heap w) mr))
              (handleOf (load_ptr (heap w) mc))
              (handleOf (load_ptr (heap w) mw))].
Proof.
  intros Hr Hc Hw. apply nonzero_true in Hr, Hc, Hw.
  pose proof (setParam_renderer K mr w) as H1.
  match type of H1 with _ = Ok tt ?x => set (w1 := x) in * end.
  pose proof (setParam_camera K mc w1) as H2.
  match type of H2 with _ = Ok tt ?x => set (w2 := x) in * end.
  pose proof (setParam_world K mw w2) as H3.
  match type of H3 with _ = Ok tt ?x => set (w3 := x) in * end.
  assert (Hfields : scene_set (self w3) = true
                    /\ render_submit handleOf w3
                       = ospRenderFrame (m_object (self w))
                           (handleOf (load_ptr (heap w) mr))
                           (handleOf (load_ptr (heap w) mc))
                           (handleOf (load_ptr (heap w) mw))
                    /\ filter is_submit (trace w3) = filter is_submit (trace w)).
  { unfold scene_set, render_submit, w3, w2, w1. cbn [self heap trace].
    rewrite !filter_app. cbn [filter is_submit]. rewrite !app_nil_r.
    destruct (self w). cbn. rewrite Hr, Hc, Hw. auto. }
  destruct Hfields as (Hset & Hsub & Htr).
  pose proof (render_defined respond handleOf this _d w3 Hset) as Hrender.
  cbv zeta in Hrender. rewrite Hsub in Hrender.
  exists w1, w2, w3. eexists.
  split; [exact H1 |]. split; [exact H2 |]. split; [exact H3 |].
  split; [exact Hrender |]. cbn [trace]. split.
  - apply in_or_app. right. apply in_or_app. right. cbn. tauto.
  - rewrite !filter_app, Htr. unfold render_prefix, render_notify.
    destruct (nonzero (respond (trace w3 ++ [ospRelease (m_future (self w3))])
                         (isModified _d)));
      destruct (nonzero (m_continuation (self w3))); reflexivity.
Qed.

(** X17 with the scene objects 31, 32 and 33 stored at 710, 720 and 730. *)
Lemma scene_parameters_reach_submit_witness :
  exists w1 w2 w3 w4 : World,
    setParam test_enums "renderer" (ANARI_RENDERER test_enums) 710
      (scene_world new_frame) = Ok tt w1
    /\ setParam test_enums "camera" (ANARI_CAMERA test_enums) 720 w1 = Ok tt w2
    /\ setParam test_enums "world" (ANARI_WORLD test_enums) 730 w2 = Ok tt w3
    /\ render silent (fun p => p + 1) 50 60 w3 = Ok tt w4
    /\ In (ospRenderFrame 0 32 33 34) (trace w4)
    /\ filter is_submit (trace w4) = [ospRenderFrame 0 32 33 34].
Proof.
  apply (scene_parameters_reach_submit test_enums silent (fun p => p + 1)
           50 60 710 720 730 (scene_world new_frame));
    vm_compute; discriminate.
Defined.

(** ** Mapping *)

(** A map of a name that resolves to a mappable channel. *)
Lemma map_resolved
    (K : Enums) (respond : list Call -> Call -> Z)
    (_channel : string) (width height pixelType : ptr) (w : World)
    (bit type : Z) :
  map_target K (self w) (map_channel _channel) = Some (bit, type) ->
  map K respond _channel width height pixelType w
  = Ok (respond (trace w) (ospMapFrameBuffer (m_object (self w)) bit))
       {| self := self w;
          heap := upd (upd (upd (heap w) width (to_uint32 (m_size_x (self w))))
                         height (to_uint32 (m_size_y (self w))))
                    pixelType type;
          trace := trace w ++ [ospMapFrameBuffer (m_object (self w)) bit] |}.
Proof.
  unfold map_target. intros Ht.
  unfold map, ask. cbv zeta. run_monad.
  destruct (map_channel _channel == "channel.color");
    [| destruct (map_channel _channel == "channel.depth");
       [| destruct (map_channel _channel == "channel.albedo");
          [| destruct (map_channel _channel == "channel.normal");
             [| discriminate Ht]]]];
    injection Ht as <- <-; reflexivity.
Qed.

(** X18: for a name that resolves to one of the four mappable channels,
    map writes the size and the channel's pixel type through the
    out-pointers (the stored format for color, float for depth, three-float
    vectors for albedo and normal whatever the frame's format), makes one
    engine call on the current buffer handle with the channel's constant,
    and returns the engine's pointer as it is.  It does not look at the
    channel flags: with the flags set any other way the result, the writes
    and the calls are the same, so a channel that was never enabled is
    mapped all the same. *)
Theorem map_known_channel
    (K : Enums) (respond : list Call -> Call -> Z)
    (_channel : string) (width height pixelType : ptr) (w : World)
    (bit type : Z) :
  map_target K (self w) (map_channel _channel) = Some (bit, type) ->
  let request := ospMapFrameBuffer (m_object (self w)) bit in
  let heap' := upd (upd (upd (heap w) width (to_uint32 (m_size_x (self w))))
                      height (to_uint32 (m_size_y (self w))))
                 pixelType type in
  map K respond _channel width height pixelType w
  = Ok (respond (trace w) request)
       {| self := self w; heap := heap'; trace := trace w ++ [request] |}
  /\ (type = ANARI_FLOAT32 K \/ type = ANARI_FLOAT32_VEC3 K
      \/ type = m_format (self w))
  /\ forall depth normal albedo : bool,
       let flagged := set_m_depthBuffer depth
                        (set_m_normalBuffer normal
                           (set_m_albedoBuffer albedo (self w))) in
       map K respond _channel width height pixelType
         {| self := flagged; heap := heap w; trace := trace w |}
       = Ok (respond (trace w) request)
            {| self := flagged; heap := heap'; trace := trace w ++ [request] |}.
Proof.
  intros Ht. cbv zeta.
  split; [exact (map_resolved K respond _channel width height pixelType w
                   bit type Ht) |].
  split.
  { revert Ht. unfold map_target.
    destruct (map_channel _channel == "channel.color");
      [| destruct (map_channel _channel == "channel.depth");
         [| destruct (map_channel _channel == "channel.albedo");
            [| destruct (map_channel _channel == "channel.normal")]]];
      intros Ht; try discriminate Ht; injection Ht as _ <-; auto. }
  intros depth normal albedo.
  set (flagged := set_m_depthBuffer depth
                    (set_m_normalBuffer normal (set_m_albedoBuffer albedo (self w)))).
  assert (Hsame : map_target K flagged (map_channel _channel) = Some (bit, type)
                  /\ m_object flagged = m_object (self w)
                  /\ m_size_x flagged = m_size_x (self w)
                  /\ m_size_y flagged = m_size_y (self w)).
  { revert Ht. unfold map_target, flagged. destruct (self w). cbn. auto. }
  destruct Hsame as (Ht' & Hobj & Hx & Hy).
  rewrite (map_resolved K respond _channel width height pixelType
             {| self := flagged; heap := heap w; trace := trace w |} bit type Ht').
  cbn [self heap trace]. rewrite Hobj, Hx, Hy. reflexivity.
Qed.

(** X18 at [albedo] on the committed frame, whose albedo channel is not
    enabled and whose format is 1. *)
Lemma map_known_channel_witness :
  exists w' : World,
    map test_enums fresh "albedo" 600 604 608 (world_of clean_frame) = Ok 1000 w'
    /\ m_albedoBuffer clean_frame = false
    /\ heap w' 600 = 640 /\ heap w' 604 = 480 /\ heap w' 608 = 1070
    /\ trace w' = [ospMapFrameBuffer 7 32].
Proof.
  eexists. split.
  - apply (map_known_channel test_enums fresh "albedo" 600 604 608
             (world_of clean_frame) 32 1070).
    reflexivity.
  - repeat split.
Defined.

(** X19: after a commit that rebuilt the buffer, map, unmap and render all
    work on the handle the engine returned from the create call. *)
Theorem calls_after_commit_use_new_buffer
    (K : Enums) (respond : list Call -> Call -> Z) (enumCast : Z -> Z)
    (handleOf : ptr -> Z)
    (_channel : string) (width height pixelType p this _d : ptr) (w : World)
    (bit type : Z) :
  m_reconstructOnCommit (self w) = true ->
  map_target K (self w) (map_channel _channel) = Some (bit, type) ->
  scene_set (self w) = true ->
  exists (w1 : World) (h : Z),
    commit K respond enumCast w = Ok tt w1
    /\ h = respond (trace w ++ [ospRelease (m_object (self w))])
             (ospNewFrameBuffer (m_size_x (self w)) (m_size_y (self w))
                (enumCast (m_format (self w))) (mask_of K (channel_set (self w))))
    /\ trace (state_of (map K respond _channel width height pixelType w1))
       = trace w1 ++ [ospMapFrameBuffer h bit]
    /\ unmap p w1 = Ok tt (log (ospUnmapFrameBuffer p h) w1)
    /\ In (ospRenderFrame h (handleOf (m_renderer (self w)))
             (handleOf (m_camera (self w))) (handleOf (m_world (self w))))
          (trace (state_of (render respond handleOf this _d w1))).
Proof.
  intros Hdirty Ht Hset.
  pose proof (commit_dirty K respond enumCast w Hdirty) as Hc. cbv zeta in Hc.
  set (h := respond (trace w ++ [ospRelease (m_object (self w))])
              (ospNewFrameBuffer (m_size_x (self w)) (m_size_y (self w))
                 (enumCast (m_format (self w))) (mask_of K (channel_set (self w)))))
    in *.
  match type of Hc with _ = Ok tt ?x => set (w1 := x) in * end.
  assert (Hfields : m_object (self w1) = h
                    /\ map_target K (self w1) (map_channel _channel) = Some (bit, type)
                    /\ scene_set (self w1) = true
                    /\ render_submit handleOf w1
                       = ospRenderFrame h (handleOf (m_renderer (self w)))
                           (handleOf (m_camera (self w)))
                           (handleOf (m_world (self w)))).
  { revert Ht Hset. unfold map_target, scene_set, render_submit, w1.
    cbn [self]. generalize h. destruct (self w). cbn. auto. }
  destruct Hfields as (Hobj & Ht1 & Hset1 & Hsub).
  exists w1, h. split; [exact Hc |]. split; [reflexivity |].
  split.
  { rewrite (map_resolved K respond _channel width height pixelType w1
               bit type Ht1).
    cbn [state_of trace]. rewrite Hobj. reflexivity. }
  split.
  { unfold unmap. run_monad. rewrite Hobj. reflexivity. }
  rewrite (render_defined respond handleOf this _d w1 Hset1).
  cbn [state_of trace]. rewrite Hsub.
  apply in_or_app. right. apply in_or_app. right. cbn. tauto.
Qed.

(** X19 on the 64 by 48 frame, which is marked for reconstruction: the new
    buffer is 1001. *)
Lemma calls_after_commit_use_new_buffer_witness :
  exists w1 : World,
    commit test_enums fresh (fun t => t) (world_of ready_frame) = Ok tt w1
    /\ trace (state_of (map test_enums fresh "depth" 600 604 608 w1))
       = trace w1 ++ [ospMapFrameBuffer 1001 2]
    /\ unmap 1004 w1 = Ok tt (log (ospUnmapFrameBuffer 1004 1001) w1)
    /\ In (ospRenderFrame 1001 11 12 13)
          (trace (state_of (render fresh (fun p => p) 50 60 w1))).
Proof.
  destruct (calls_after_commit_use_new_buffer test_enums fresh (fun t => t)
              (fun p => p) "depth" 600 604 608 1004 50 60 (world_of ready_frame)
              2 1068 eq_refl eq_refl eq_refl)
    as (w1 & h & Hc & Hh & Hm & Hu & Hr).
  subst h. exists w1. repeat split; assumption.
Defined.

(** ** Laziness of the reconstruction over whole client programs *)

Section ProgramEffects.

Variable K : Enums.
Variable respond : list Call -> Call -> Z.
Variable enumCast : Z -> Z.
Variable handleOf : ptr -> Z.

Lemma setParam_effect (_id : string) (type : Z) (mem : ptr) (w : World) :
  let w' := state_of (setParam K _id type mem w) in
  m_object (self w') = m_object (self w)
  /\ creates (trace w') = creates (trace w)
  /\ (m_reconstructOnCommit (self w) = true ->
      m_reconstructOnCommit (self w') = true).
Proof.
  cbv zeta. unfold setParam, setAsInt, setNewHandle. cbv zeta. run_monad.
  split_ifs; cbn [state_of self trace]; rewrite ?creates_app;
    destruct (self w); cbn; repeat split; auto; lia.
Qed.

Lemma setParam_keeps_flag (_id : string) (type : Z) (mem : ptr) (w : World) :
  structural (setParam_id _id) = false ->
  m_reconstructOnCommit (self (state_of (setParam K _id type mem w)))
  = m_reconstructOnCommit (self w).
Proof.
  unfold structural. intros Hst.
  apply orb_false_iff in Hst. destruct Hst as [Hst Hn].
  apply orb_false_iff in Hst. destruct Hst as [Hst Ha].
  apply orb_false_iff in Hst. destruct Hst as [Hst Hd].
  apply orb_false_iff in Hst. destruct Hst as [Hs Hc].
  unfold setParam, setNewHandle. cbv zeta.
  rewrite Hs, Hc, Hd, Ha, Hn. cbn [andb]. run_monad.
  split_ifs; cbn [state_of self]; destruct (self w); reflexivity.
Qed.

Lemma render_effect (this _d : ptr) (w : World) :
  let w' := state_of (render respond handleOf this _d w) in
  m_object (self w') = m_object (self w)
  /\ creates (trace w') = creates (trace w)
  /\ m_reconstructOnCommit (self w') = m_reconstructOnCommit (self w).
Proof.
  cbv zeta. destruct (scene_set (self w)) eqn:Hset.
  - rewrite (render_defined respond handleOf this _d w Hset).
    cbn [state_of self trace]. rewrite !creates_app.
    unfold render_prefix, render_submit, render_notify.
    destruct (nonzero (respond (trace w ++ [ospRelease (m_future (self w))])
                         (isModified _d)));
      destruct (nonzero (m_continuation (self w)));
      destruct (self w); cbn; repeat split; lia.
  - rewrite (render_null_scene respond handleOf this _d w Hset).
    cbn [state_of self trace]. rewrite creates_app. unfold render_prefix.
    destruct (nonzero (respond (trace w ++ [ospRelease (m_future (self w))])
                         (isModified _d))); cbn; repeat split; lia.
Qed.

Lemma query_effect (op : Op) (w : World) :
  match op with Map _ _ _ _ | Unmap _ | GetProperty _ _ _ _ => True | _ => False end ->
  let w' := state_of (exec K respond enumCast handleOf op w) in
  self w' = self w /\ creates (trace w') = creates (trace w).
Proof.
  cbv zeta.
  destruct op as [? ? ? | | ? ? | ch wd ht pt | p | name type p flags];
    intros Hq; try contradiction; cbn [exec].
  - unfold map, ask. cbv zeta. run_monad.
    split_ifs; cbn [state_of self trace]; rewrite ?creates_app;
      split; cbn; try reflexivity; lia.
  - unfold unmap. cbv zeta. run_monad. cbn [state_of self trace].
    rewrite creates_app.
    split; cbn; try reflexivity; lia.
  - unfold getProperty, ask. run_monad.
    split_ifs; cbn; unfold creates; rewrite ?filter_app, ?length_app;
      split; cbn; try reflexivity; lia.
Qed.

(** What one call does to the buffer handle, to the number of buffers
    created and to the pending rebuild. *)
Lemma exec_effect (op : Op) (w : World) :
  let w' := state_of (exec K respond enumCast handleOf op w) in
  (is_commit op = false ->
   m_object (self w') = m_object (self w)
   /\ creates (trace w') = creates (trace w)
   /\ (m_reconstructOnCommit (self w) = true ->
       m_reconstructOnCommit (self w') = true)
   /\ (is_structural_set op = false -> pending (self w') = pending (self w)))
  /\ (is_commit op = true ->
      m_reconstructOnCommit (self w') = false
      /\ creates (trace w') = (creates (trace w) + pending (self w))%nat).
Proof.
  cbv zeta. unfold pending.
  destruct op as [_id type mem | | this _d | ch wd ht pt | p | name type p flags].
  - split; [intros _ | discriminate]. cbn [exec is_structural_set].
    destruct (setParam_effect _id type mem w) as (Ho & Hc & Hf).
    repeat split; auto.
    intros Hst. rewrite (setParam_keeps_flag _id type mem w Hst). reflexivity.
  - split; [discriminate | intros _]. cbn [exec].
    destruct (m_reconstructOnCommit (self w)) eqn:Hflag.
    + rewrite (commit_dirty K respond enumCast w Hflag).
      cbn [state_of self trace]. rewrite creates_app.
      split; [destruct (self w); reflexivity | cbn; lia].
    + rewrite (commit_clean K respond enumCast w Hflag).
      cbn [state_of self trace log]. rewrite creates_app.
      split; [exact Hflag | cbn; lia].
  - split; [intros _ | discriminate]. cbn [exec].
    destruct (render_effect this _d w) as (Ho & Hc & Hf).
    rewrite Hf. repeat split; auto.
  - split; [intros _ | discriminate].
    destruct (query_effect (Map ch wd ht pt) w I) as (Hs & Hc).
    rewrite Hs. repeat split; auto.
  - split; [intros _ | discriminate].
    destruct (query_effect (Unmap p) w I) as (Hs & Hc).
    rewrite Hs. repeat split; auto.
  - split; [intros _ | discriminate].
    destruct (query_effect (GetProperty name type p flags) w I) as (Hs & Hc).
    rewrite Hs. repeat split; auto.
Qed.

Lemma run_step (op : Op) (rest : list Op) (w : World) :
  let w' := state_of (exec K respond enumCast handleOf op w) in
  run K respond enumCast handleOf (op :: rest) w
  = run K respond enumCast handleOf rest w'
  \/ run K respond enumCast handleOf (op :: rest) w = w'.
Proof.
  cbv zeta. cbn [run].
  destruct (exec K respond enumCast handleOf op w); cbn [state_of]; auto.
Qed.

End ProgramEffects.

Lemma pending_le_1 (f : Frame) : (pending f <= 1)%nat.
Proof. unfold pending. destruct (m_reconstructOnCommit f); cbn; lia. Qed.

(** X20: however a client mixes its calls, the engine is asked for at most
    one buffer per commit: set-parameter calls, renders, maps, unmaps and
    property queries never create one. *)
Theorem buffers_created_only_by_commit
    (K : Enums) (respond : list Call -> Call -> Z) (enumCast : Z -> Z)
    (handleOf : ptr -> Z) (ops : list Op) (w : World) :
  (creates (trace (run K respond enumCast handleOf ops w))
   <= creates (trace w) + commits ops)%nat.
Proof.
  revert w. induction ops as [| op rest IH]; intros w.
  - cbn. lia.
  - destruct (exec_effect K respond enumCast handleOf op w) as [Hother Hcommit].
    cbv zeta in Hother, Hcommit.
    pose proof (pending_le_1 (self w)) as Hp.
    assert (Hstep :
      (creates (trace (state_of (exec K respond enumCast handleOf op w)))
       <= creates (trace w) + if is_commit op then 1 else 0)%nat).
    { destruct (is_commit op).
      - destruct (Hcommit eq_refl) as [_ Hc]. lia.
      - destruct (Hother eq_refl) as (_ & Hc & _). lia. }
    unfold commits in *. cbn [filter].
    destruct (run_step K respond enumCast handleOf op rest w) as [Hrun | Hrun];
      cbv zeta in Hrun; rewrite Hrun.
    + specialize (IH (state_of (exec K respond enumCast handleOf op w))).
      destruct (is_commit op); cbn [List.length] in *; lia.
    + destruct (is_commit op); cbn [List.length] in *; lia.
Qed.

(** X21: the buffers created plus the rebuild still pending never exceed
    what there was at the start plus the number of calls that name a
    structural parameter: renders, maps, queries, commits and all other
    parameters never cause a reconstruction of their own. *)
Theorem rebuilds_bounded_by_structural_sets
    (K : Enums) (respond : list Call -> Call -> Z) (enumCast : Z -> Z)
    (handleOf : ptr -> Z) (ops : list Op) (w : World) :
  (creates (trace (run K respond enumCast handleOf ops w))
   + pending (self (run K respond enumCast handleOf ops w))
   <= creates (trace w) + pending (self w) + structural_sets ops)%nat.
Proof.
  revert w. induction ops as [| op rest IH]; intros w.
  - cbn. lia.
  - destruct (exec_effect K respond enumCast handleOf op w) as [Hother Hcommit].
    cbv zeta in Hother, Hcommit.
    set (w' := state_of (exec K respond enumCast handleOf op w)) in *.
    pose proof (pending_le_1 (self w')) as Hp'.
    assert (Hstep :
      (creates (trace w') + pending (self w')
       <= creates (trace w) + pending (self w)
          + if is_structural_set op then 1 else 0)%nat).
    { destruct (is_commit op) eqn:Hc.
      - destruct (Hcommit eq_refl) as [Hflag Hcr].
        unfold pending at 1. rewrite Hflag. cbn [Nat.b2n]. lia.
      - destruct (Hother eq_refl) as (_ & Hcr & _ & Hsame).
        destruct (is_structural_set op).
        + lia.
        + rewrite (Hsame eq_refl). lia. }
    unfold structural_sets in *. cbn [filter].
    destruct (run_step K respond enumCast handleOf op rest w) as [Hrun | Hrun];
      cbv zeta in Hrun; fold w' in Hrun; rewrite Hrun.
    + specialize (IH w').
      destruct (is_structural_set op); cbn [List.length] in *; lia.
    + destruct (is_structural_set op); cbn [List.length] in *; lia.
Qed.

(** X22: without a commit the buffer handle never changes, no buffer is
    created, and a pending rebuild stays pending: only a commit consumes
    [m_reconstructOnCommit]. *)
Theorem buffer_changes_only_in_commit
    (K : Enums) (respond : list Call -> Call -> Z) (enumCast : Z -> Z)
    (handleOf : ptr -> Z) (ops : list Op) (w : World) :
  commits ops = 0%nat ->
  m_object (self (run K respond enumCast handleOf ops w)) = m_object (self w)
  /\ creates (trace (run K respond enumCast handleOf ops w)) = creates (trace w)
  /\ (m_reconstructOnCommit (self w) = true ->
      m_reconstructOnCommit (self (run K respond enumCast handleOf ops w)) = true).
Proof.
  revert w. induction ops as [| op rest IH]; intros w Hnone.
  - cbn. auto.
  - unfold commits in Hnone. cbn [filter] in Hnone.
    destruct (is_commit op) eqn:Hc; [discriminate Hnone |].
    destruct (exec_effect K respond enumCast handleOf op w) as [Hother _].
    cbv zeta in Hother. destruct (Hother Hc) as (Hobj & Hcr & Hflag & _).
    destruct (run_step K respond enumCast handleOf op rest w) as [Hrun | Hrun];
      cbv zeta in Hrun; rewrite Hrun.
    + destruct (IH (state_of (exec K respond enumCast handleOf op w)) Hnone)
        as (Hobj' & Hcr' & Hflag').
      rewrite Hobj', Hcr', Hobj, Hcr. auto.
    + auto.
Qed.

(** X22 on the 64 by 48 frame, whose rebuild is pending, through a resize,
    a render, a mapping and a query. *)
Lemma buffer_changes_only_in_commit_witness :
  m_object
    (self (run test_enums fresh (fun t => t) (fun p => p)
             [SetParam "size" (ANARI_UINT32_VEC2 test_enums) 400;
              Render 50 60;
              Map "color" 600 604 608;
              GetProperty "variance" (ANARI_FLOAT32 test_enums) 500 0]
             (world_of ready_frame))) = 7
  /\ m_reconstructOnCommit
       (self (run test_enums fresh (fun t => t) (fun p => p)
                [SetParam "size" (ANARI_UINT32_VEC2 test_enums) 400;
                 Render 50 60;
                 Map "color" 600 604 608;
                 GetProperty "variance" (ANARI_FLOAT32 test_enums) 500 0]
                (world_of ready_frame))) = true.
Proof.
  destruct (buffer_changes_only_in_commit test_enums fresh (fun t => t) (fun p => p)
              [SetParam "size" (ANARI_UINT32_VEC2 test_enums) 400;
               Render 50 60;
               Map "color" 600 604 608;
               GetProperty "variance" (ANARI_FLOAT32 test_enums) 500 0]
              (world_of ready_frame) eq_refl) as (Hobj & _ & Hflag).
  split; [exact Hobj | apply Hflag; reflexivity].
Defined.

(** ** Further compositions *)

Lemma to_int32_small (v : Z) :
  - 2 ^ 31 <= v < 2 ^ 31 -> to_int32 v = v.
Proof.
  unfold to_int32.
  change (2 ^ 32) with 4294967296. change (2 ^ 31) with 2147483648.
  intros Hv. Z.div_mod_to_equations. lia.
Qed.

(** X23: the tag given as the color channel's format is what a later map
    of the color channel reports as pixel type, already before any commit,
    while the depth channel is reported as float whatever the format. *)
Theorem color_format_round_trip
    (K : Enums) (respond : list Call -> Call -> Z)
    (mem width height pixelType : ptr) (w : World) :
  - 2 ^ 31 <= heap w mem < 2 ^ 31 ->
  exists w1 : World,
    setParam K "channel.color" (ANARI_DATA_TYPE K) mem w = Ok tt w1
    /\ heap (state_of (map K respond "color" width height pixelType w1)) pixelType
       = heap w mem
    /\ heap (state_of (map K respond "depth" width height pixelType w1)) pixelType
       = ANARI_FLOAT32 K.
Proof.
  intros Hv.
  pose proof (setParam_color K "channel.color" mem w eq_refl) as Hs.
  match type of Hs with _ = Ok tt ?x => set (w1 := x) in * end.
  assert (Hfmt : m_format (self w1) = heap w mem).
  { unfold w1. cbn [self]. unfold load_int.
    replace (mem + 4 * 0) with mem by lia.
    rewrite (to_int32_small _ Hv). destruct (self w); reflexivity. }
  exists w1. split; [exact Hs |]. split.
  - rewrite (map_resolved K respond "color" width height pixelType w1
               (OSP_FB_COLOR K) (m_format (self w1)) eq_refl).
    cbn [state_of heap]. unfold upd at 1. rewrite Z.eqb_refl. exact Hfmt.
  - rewrite (map_resolved K respond "depth" width height pixelType w1
               (OSP_FB_DEPTH K) (ANARI_FLOAT32 K) eq_refl).
    cbn [state_of heap]. unfold upd at 1. rewrite Z.eqb_refl. reflexivity.
Qed.

(** X23 with the tag 1070 stored at 700. *)
Lemma color_format_round_trip_witness :
  exists w1 : World,
    setParam test_enums "channel.color" (ANARI_DATA_TYPE test_enums) 700
      (scene_world clean_frame) = Ok tt w1
    /\ heap (state_of (map test_enums fresh "color" 600 604 608 w1)) 608 = 1070
    /\ heap (state_of (map test_enums fresh "depth" 600 604 608 w1)) 608 = 1068.
Proof.
  apply (color_format_round_trip test_enums fresh 700 600 604 608
           (scene_world clean_frame)).
  vm_compute. intuition discriminate.
Defined.

(** X24: an accepted parameter call is idempotent on the state: repeating
    a call that returned normally, with the same arguments and caller
    memory, leaves the frame's fields and caller memory exactly as the
    first call left them.  The repeat makes no call out of the unit, so the
    whole state is as the first call left it, except for [renderer],
    [camera] and [world], where it is the one smart-pointer assignment of
    the object to itself. *)
Theorem accepted_parameter_is_idempotent
    (K : Enums) (_id : string) (type : Z) (mem : ptr) (w w1 : World) :
  expected_type K (setParam_id _id) = Some type ->
  setParam K _id type mem w = Ok tt w1 ->
  setParam K _id type mem w1
  = Ok tt {| self := self w1; heap := heap w1;
             trace := trace w1 ++
               match scene_reference (setParam_id _id) with
               | Some _ => [IntrusivePtr_assign (load_ptr (heap w) mem)
                              (load_ptr (heap w) mem)]
               | None => []
               end |}
  /\ (scene_reference (setParam_id _id) = None ->
      setParam K _id type mem w1 = Ok tt w1).
Proof.
  intros Hexp Hset.
  assert (Hrepeat :
    setParam K _id type mem w1
    = Ok tt {| self := self w1; heap := heap w1;
               trace := trace w1 ++
                 match scene_reference (setParam_id _id) with
                 | Some _ => [IntrusivePtr_assign (load_ptr (heap w) mem)
                                (load_ptr (heap w) mem)]
                 | None => []
                 end |}).
  { revert Hset. unfold setParam. cbv zeta.
    remember (setParam_id _id) as id eqn:Hid. clear Hid.
    unfold expected_type in Hexp.
    repeat match type of Hexp with
           | (if ?a == ?b then _ else _) = _ =>
               let E := fresh "E" in
               destruct (a == b) eqn:E;
               [ apply streq_true in E; subst id;
                 injection Hexp as <-;
                 unfold scene_reference;
                 eval_streq; rewrite ?Z.eqb_refl;
                 unfold setAsInt, setNewHandle; run_monad;
                 try (destruct (load_int (heap w) mem 0 =? ANARI_FLOAT32_VEC3 K)
                        eqn:Hty; [| discriminate]);
                 intros Hset; injection Hset as <-; cbn [self heap trace];
                 rewrite ?Hty, ?app_nil_r; destruct (self w); reflexivity
               | ]
           end.
    discriminate. }
  split; [exact Hrepeat |].
  intros Hnone. rewrite Hrepeat, Hnone, app_nil_r. destruct w1; reflexivity.
Qed.

(** X24 at the size parameter on the 64 by 48 frame, and at the renderer
    parameter, whose repeat assigns the object 31 to itself. *)
Lemma accepted_parameter_is_idempotent_witness :
  (exists w1 : World,
     setParam test_enums "size" (ANARI_UINT32_VEC2 test_enums) 400
       (world_of ready_frame) = Ok tt w1
     /\ setParam test_enums "size" (ANARI_UINT32_VEC2 test_enums) 400 w1 = Ok tt w1)
  /\ (exists w1 : World,
        setParam test_enums "renderer" (ANARI_RENDERER test_enums) 710
          (scene_world clean_frame) = Ok tt w1
        /\ setParam test_enums "renderer" (ANARI_RENDERER test_enums) 710 w1
           = Ok tt (log (IntrusivePtr_assign 31 31) w1)).
Proof.
  split.
  - eexists. split; [reflexivity |].
    apply (accepted_parameter_is_idempotent test_enums "size"
             (ANARI_UINT32_VEC2 test_enums) 400 (world_of ready_frame));
      reflexivity.
  - eexists. split; [reflexivity |].
    apply (accepted_parameter_is_idempotent test_enums "renderer"
             (ANARI_RENDERER test_enums) 710 (scene_world clean_frame));
      reflexivity.
Defined.

(** X25: map, unmap and getProperty never change a field of the frame,
    whatever their outcome, and never release, create, reset or submit
    anything: the calls they add, at most two, are waits, the task and
    buffer queries, the mapping calls and [Object::getProperty].  Caller
    memory is written at the out-pointers only: by map at its width, height
    and pixel type pointers, by getProperty at its output pointer, by unmap
    nowhere. *)
Theorem queries_only_read_the_frame
    (K : Enums) (respond : list Call -> Call -> Z) (w : World) :
  (forall (_channel : string) (width height pixelType : ptr),
     let w' := state_of (map K respond _channel width height pixelType w) in
     self w' = self w
     /\ (exists added : list Call,
           trace w' = trace w ++ added
           /\ forallb is_query_call added = true
           /\ (List.length added <= 1)%nat)
     /\ forall a : ptr,
          a <> width -> a <> height -> a <> pixelType -> heap w' a = heap w a)
  /\ (forall p : ptr,
        let w' := state_of (unmap p w) in
        self w' = self w
        /\ trace w' = trace w ++ [ospUnmapFrameBuffer p (m_object (self w))]
        /\ heap w' = heap w)
  /\ (forall (name : string) (type : Z) (p : ptr) (flags : Z),
        let w' := state_of (getProperty K respond name type p flags w) in
        self w' = self w
        /\ (exists added : list Call,
              trace w' = trace w ++ added
              /\ forallb is_query_call added = true
              /\ (List.length added <= 2)%nat)
        /\ forall a : ptr, a <> p -> heap w' a = heap w a).
Proof.
  split; [| split].
  - intros ch wd ht pt. cbv zeta. unfold map, ask. cbv zeta. run_monad.
    split_ifs; cbn [state_of self heap trace];
      (split; [reflexivity |]);
      (split;
       [ first [ eexists; split; [reflexivity |]; split; [reflexivity | cbn; lia]
               | exists []; rewrite app_nil_r; split; [reflexivity |];
                 split; [reflexivity | cbn; lia] ]
       | intros a Hw Hh Hp; apply Z.eqb_neq in Hw, Hh, Hp; unfold upd;
         rewrite ?Hw, ?Hh, ?Hp; reflexivity ]).
  - intros p. cbv zeta. unfold unmap. cbv zeta. run_monad.
    cbn [state_of self heap trace]. repeat split.
  - intros name type p flags. cbv zeta. unfold getProperty, ask. run_monad.
    split_ifs; run_monad; cbn [state_of self heap trace];
      (split; [reflexivity |]);
      (split;
       [ rewrite <- ?app_assoc; eexists; split; [reflexivity |];
         split; [reflexivity | cbn; lia]
       | intros a Hp; apply Z.eqb_neq in Hp; unfold upd;
         rewrite ?Hp; reflexivity ]).
Qed.

(** X25 at a wait-qualified progress query on a frame whose task handle is
    9: the cell next to the output pointer keeps its value. *)
Lemma queries_only_read_the_frame_witness :
  heap (state_of (getProperty test_enums fresh "progress" (ANARI_FLOAT32 test_enums)
                    400 1 (world_of (set_m_future 9 clean_frame)))) 404 = 480.
Proof.
  destruct (queries_only_read_the_frame test_enums fresh
              (world_of (set_m_future 9 clean_frame))) as (_ & _ & Hquery).
  destruct (Hquery "progress"%string (ANARI_FLOAT32 test_enums) 400 1)
    as (_ & _ & Hheap).
  rewrite Hheap; [reflexivity | discriminate].
Defined.
